(** * AllSignals: trading-day resolution, price extraction and gap signals

    A shallow embedding of the core of [bid.py], [signal.py] and
    [server.py]: the trading-day resolvers, the 3:30 PM candle scan, the
    expiry selector, the gap computation and the coverage premium table,
    with the properties the specification states about them.

    Conventions of the embedding.
    - A [datetime] is the proleptic Gregorian ordinal of its date
      ([date.toordinal()]) together with its clock fields.  A
      [timedelta(days=n)] is added or subtracted on the ordinal.  The
      resolvers move at most four days back and at most three forward
      from [datetime.now()] (see [bid_days_within_four_days]), so a wall
      clock later than 0001-01-05 and earlier than 9999-12-29 never
      leaves Python's range of dates.
    - A date string produced by [strftime("%Y-%m-%d")] is represented by
      the ordinal it denotes (the format is injective on dates).
    - Prices are exact rationals ([Q]); [round(x, 2)] is rounding to two
      decimals, ties to even.  [None] is [option]'s [None].
    - An uncaught Python exception is a value of the error monad [exc]. *)

From Equations Require Import Equations.
From Stdlib Require Import ZArith QArith Qround Lia Lqa Bool List String Ascii Permutation Sorted.
From stdpp Require Import base option gmap strings.
Import ListNotations.
Open Scope Z_scope.

(** ** Python values *)

(** [datetime.datetime]: date ordinal and clock fields. *)
Record datetime : Type := mkdt {
  ordinal : Z;
  hour : Z;
  minute : Z;
  second : Z;
  microsecond : Z
}.

(** The datetimes Python can build. *)
Definition valid_datetime (d : datetime) : Prop :=
  1 <= ordinal d <= 3652059 /\ 0 <= hour d < 24 /\ 0 <= minute d < 60 /\
  0 <= second d < 60 /\ 0 <= microsecond d < 1000000.

(** Microseconds elapsed since midnight. *)
Definition time_of_day (d : datetime) : Z :=
  ((hour d * 60 + minute d) * 60 + second d) * 1000000 + microsecond d.

(** The instant [h:m:00.000000] of a day, in microseconds. *)
Definition clock (h m : Z) : Z := (h * 60 + m) * 60 * 1000000.

(** [date.weekday()]: Monday is 0, Sunday is 6. *)
Definition weekday_of (o : Z) : Z := (o + 6) mod 7.

Definition weekday (d : datetime) : Z := weekday_of (ordinal d).

(** [d.replace(hour=0, minute=0, second=0, microsecond=0)] *)
Definition replace_midnight (d : datetime) : datetime :=
  mkdt (ordinal d) 0 0 0 0.

(** [d - timedelta(days=n)] *)
Definition minus_days (d : datetime) (n : Z) : datetime :=
  mkdt (ordinal d - n) (hour d) (minute d) (second d) (microsecond d).

(** [d + timedelta(days=n)] *)
Definition plus_days (d : datetime) (n : Z) : datetime :=
  mkdt (ordinal d + n) (hour d) (minute d) (second d) (microsecond d).

(** [d.date()], compared with [==]. *)
Definition date (d : datetime) : Z := ordinal d.

(** [d.strftime("%Y-%m-%d")] *)
Definition strftime (d : datetime) : Z := ordinal d.

(** [(a - b).days]: the floor of the difference in whole days. *)
Definition timedelta_days (a b : datetime) : Z :=
  ((ordinal a - ordinal b) * 86400000000 + (time_of_day a - time_of_day b))
    / 86400000000.

(** The loop [while d.weekday() >= 5: d = d - timedelta(days=1)].  Each
    turn lowers the weekday, which bounds the number of turns. *)
Equations? skip_weekends (d : datetime) : datetime
  by wf (Z.to_nat (weekday d)) lt :=
  skip_weekends d with Z_le_gt_dec 5 (weekday d) => {
    | left _ := skip_weekends (minus_days d 1);
    | right _ := d }.
Proof.
  unfold weekday, weekday_of in *. cbn [ordinal minus_days].
  pose proof (Z.mod_pos_bound (ordinal d + 6) 7 ltac:(lia)) as Hb.
  pose proof (Z.div_mod (ordinal d + 6) 7 ltac:(lia)) as Hd.
  rewrite <- (Z.mod_unique_pos (ordinal d - 1 + 6) 7 ((ordinal d + 6) / 7)
                ((ordinal d + 6) mod 7 - 1)) by lia.
  lia.
Qed.

(** The loop [while d.weekday() >= 5: d = d + timedelta(days=1)]: from a
    Saturday or Sunday the distance to Monday shrinks at each turn. *)
Definition days_to_monday (d : datetime) : Z :=
  if 5 <=? weekday d then 7 - weekday d else 0.

Equations? skip_weekends_forward (d : datetime) : datetime
  by wf (Z.to_nat (days_to_monday d)) lt :=
  skip_weekends_forward d with Z_le_gt_dec 5 (weekday d) => {
    | left _ := skip_weekends_forward (plus_days d 1);
    | right _ := d }.
Proof.
  unfold days_to_monday, weekday, weekday_of in *. cbn [ordinal plus_days].
  pose proof (Z.mod_pos_bound (ordinal d + 6) 7 ltac:(lia)) as Hb.
  pose proof (Z.div_mod (ordinal d + 6) 7 ltac:(lia)) as Hd.
  destruct (Z.eq_dec ((ordinal d + 6) mod 7) 6) as [E|E].
  - rewrite <- (Z.mod_unique_pos (ordinal d + 1 + 6) 7
                  ((ordinal d + 6) / 7 + 1) 0) by lia.
    rewrite E. simpl. lia.
  - rewrite <- (Z.mod_unique_pos (ordinal d + 1 + 6) 7 ((ordinal d + 6) / 7)
                  ((ordinal d + 6) mod 7 + 1)) by lia.
    destruct (5 <=? (ordinal d + 6) mod 7 + 1) eqn:E1;
    destruct (5 <=? (ordinal d + 6) mod 7) eqn:E2; lia.
Qed.

(** ** Exceptions *)

(** The exceptions that can cross a function boundary in the modelled
    code. *)
Inductive exn : Type :=
| ZeroDivisionError
| KeyError (key : string)
| TypeError.

(** A computation that returns a value or raises. *)
Definition exc (A : Type) : Type := (exn + A)%type.

Definition ret {A : Type} (a : A) : exc A := inr a.

Definition raise {A : Type} (e : exn) : exc A := inl e.

Definition bind {A B : Type} (c : exc A) (k : A -> exc B) : exc B :=
  match c with
  | inl e => inl e
  | inr a => k a
  end.

Notation "'let*' x ':=' c 'in' k" := (bind c (fun x => k))
  (at level 10, x pattern, c at level 100, k at level 200).

(** ** Numbers *)

(** Truth value of a price that may be [None]: [None] and zero are
    false. *)
Definition truthy (x : option Q) : bool :=
  match x with
  | Some q => negb (Qeq_bool q 0)
  | None => false
  end.

(** [x > y] and [x < y] on numbers. *)
Definition Qgtb (x y : Q) : bool := negb (Qle_bool x y).

Definition Qltb (x y : Q) : bool := negb (Qle_bool y x).

(** [x / y], which raises on a zero divisor. *)
Definition py_div (x y : Q) : exc Q :=
  if Qeq_bool y 0 then raise ZeroDivisionError else ret (x / y)%Q.

(** Nearest integer, ties to the even neighbour. *)
Definition round_half_even (x : Q) : Z :=
  let f := Qfloor x in
  match (x - inject_Z f ?= 1 # 2)%Q with
  | Lt => f
  | Gt => f + 1
  | Eq => if Z.even f then f else f + 1
  end.

(** [round(x, 2)] *)
Definition round2 (x : Q) : Q := Qred (round_half_even (x * 100) # 100).

(** ** Strings *)

(** [s.replace(old, '')] for a non-empty [old]: every occurrence of [old]
    is dropped, scanning from the left; [skip] counts the characters of a
    match still to drop. *)
Fixpoint remove_all (old : string) (skip : nat) (s : string) : string :=
  match s with
  | EmptyString => EmptyString
  | String c rest =>
      match skip with
      | S k => remove_all old k rest
      | O =>
          if String.prefix old s
          then remove_all old (Nat.pred (String.length old)) rest
          else String c (remove_all old 0 rest)
      end
  end.

(** Truth value of a string that may be [None]. *)
Definition str_truthy (s : option string) : bool :=
  match s with
  | Some s => negb (String.eqb s "")
  | None => false
  end.

(** The two [datetime] parsers of the Python runtime.  [None] stands for
    the exception they raise on text they do not accept;
    [strptime] is taken at the format ["%Y-%m-%d"], which accepts no
    empty text. *)
Class PyRuntime : Type := {
  fromisoformat : string -> option datetime;
  strptime : string -> option datetime;
  strptime_empty : strptime "" = None
}.

(** ** The providers *)

(** One minute candle of the provider's payload:
    [[timestamp, open, high, low, close, volume]]. *)
Record candle : Type := mkcandle {
  c_timestamp : string;
  c_open : Q;
  c_high : Q;
  c_low : Q;
  c_close : Q;
  c_volume : Q
}.

(** The two candle endpoints. *)
Inductive candle_url : Type :=
| Intraday (encoded_key : string)
| Historical (encoded_key : string) (from_date to_date : Z).

(** One row of the SixthSense table. *)
Record sixth_row : Type := mksixth {
  s_date : Z;
  s_open : Q;
  s_close : Q;
  s_change : Q
}.

(** What lies outside the program at one invocation: the clock, the
    configuration and the answers of the remote providers.  A provider
    answer is [None] when the request raises or the payload lacks the
    expected fields.  One invocation is taken at one reading of the
    clock, and a provider gives the same answer to the same question
    throughout it.  [get_expiry_dates] and [get_sixth_sense_data] stand
    for the results of the functions of these names, which only fetch
    and reshape provider data. *)
Record World : Type := mkworld {
  now : datetime;
  load_access_token : option string;
  get_expiry_dates : string -> string -> list string;
  http_candles : string -> candle_url -> option (list candle);
  yf_last_close : string -> option Q;
  get_sixth_sense_data : string -> Z -> list sixth_row
}.

(** ** The candle scans *)

(** [(h1, m1) > (h2, m2)] on tuples. *)
Definition tuple_gt (a b : Z * Z) : bool :=
  (fst b <? fst a) || ((fst a =? fst b) && (snd b <? snd a)).

Section CandleScans.

Context {RT : PyRuntime}.

(** [datetime.fromisoformat(candle[0].replace('+05:30', ''))] *)
Definition candle_datetime (c : candle) : option datetime :=
  fromisoformat (remove_all "+05:30" 0 (c_timestamp c)).

(** One turn of the loop of [get_330_ltp] over the state
    (best_candle, best_time). *)
Definition scan_330_step (st : option candle * option (Z * Z)) (c : candle)
  : option candle * option (Z * Z) :=
  let '(best_candle, best_time) := st in
  match candle_datetime c with
  | None => st
  | Some dt =>
      let hour_ := hour dt in
      let minute_ := minute dt in
      if (hour_ =? 15) && (minute_ <=? 29) then
        if match best_time with
           | None => true
           | Some bt => tuple_gt (hour_, minute_) bt
           end
        then (Some c, Some (hour_, minute_))
        else st
      else if hour_ <? 15 then
        if match best_time with
           | None => true
           | Some bt => tuple_gt (hour_, minute_) bt
           end
        then (Some c, Some (hour_, minute_))
        else st
      else st
  end.

(** The loop of [get_330_ltp] and the return after it: the close of the
    best candle, if there is one (a candle is a non-empty list, hence
    true in [if best_candle:]).  The three files have the same loop. *)
Definition scan_330 (candles : list candle) : option Q :=
  let '(best_candle, _) := fold_left scan_330_step candles (None, None) in
  match best_candle with
  | Some c => Some (c_close c)
  | None => None
  end.

(** The loop of [get_915_open]: the open of the first candle stamped
    09:15. *)
Fixpoint scan_915 (candles : list candle) : option Q :=
  match candles with
  | [] => None
  | c :: rest =>
      match candle_datetime c with
      | Some dt =>
          if (hour dt =? 9) && (minute dt =? 15) then Some (c_open c)
          else scan_915 rest
      | None => scan_915 rest
      end
  end.

End CandleScans.

(** The colours and the table of percentages. *)
Inductive color : Type := GREEN | RED | YELLOW.

(** The three outcomes of a gap section of the report. *)
Inductive gap_section : Type :=
| GapLines (first second gap gap_pct : Q) (c : color) (arrow direction : string)
| MarketNotOpenYet
| DataNotAvailable.

(** ** bid.py *)

Module Bid.

Section WithRuntime.

Context {RT : PyRuntime}.

(** [INSTRUMENTS], in insertion order. *)
Definition INSTRUMENTS : list (string * string) :=
  [ ("NIFTY 50", "NSE_INDEX|Nifty 50");
    ("BANK NIFTY", "NSE_INDEX|Nifty Bank");
    ("SENSEX", "BSE_INDEX|SENSEX") ]%string.

(** [get_trading_days()], at the reading [now] of [datetime.now()]:
    the pair of date strings (prev_day, today). *)
Definition get_trading_days (now : datetime) : Z * Z :=
  let today := now in
  let today :=
    if (hour today <? 9) || ((hour today =? 9) && (minute today <? 15))
    then minus_days today 1 else today in
  let today := skip_weekends today in
  let prev_day := minus_days today 1 in
  let prev_day := skip_weekends prev_day in
  (strftime prev_day, strftime today).

(** [get_330_ltp(access_token, instrument_key, date)] *)
Definition get_330_ltp (w : World) (access_token instrument_key : string)
    (date : Z) : option Q :=
  match http_candles w access_token (Historical instrument_key date date) with
  | Some candles => scan_330 candles
  | None => None
  end.

(** [get_915_open(access_token, instrument_key, date)] *)
Definition get_915_open (w : World) (access_token instrument_key : string)
    (date : Z) : option Q :=
  match http_candles w access_token (Historical instrument_key date date) with
  | Some candles => scan_915 candles
  | None => None
  end.

(** [get_bid_data]: the pair (ltp_330, open_915). *)
Definition get_bid_data (w : World) (access_token instrument_key : string)
    (prev_day today : Z) : option Q * option Q :=
  (get_330_ltp w access_token instrument_key prev_day,
   get_915_open w access_token instrument_key today).

(** The body of the loop of [main] for one instrument: the block it
    prints. *)
Definition main_row (ltp_330 open_915 : option Q) : exc gap_section :=
  match ltp_330, open_915 with
  | Some ltp, Some open =>
      if truthy ltp_330 && truthy open_915 then
        let gap := round2 (open - ltp) in
        let* q := py_div gap ltp in
        let gap_pct := round2 (q * 100) in
        if Qgtb gap 0 then
          ret (GapLines ltp open gap gap_pct GREEN "▲" "Gap Up")
        else if Qltb gap 0 then
          ret (GapLines ltp open gap gap_pct RED "▼" "Gap Down")
        else
          ret (GapLines ltp open gap gap_pct YELLOW "─" "Flat")
      else ret DataNotAvailable
  | _, _ => ret DataNotAvailable
  end.

(** The loop of [main] over the instruments of the table. *)
Fixpoint main_rows (w : World) (access_token : string) (prev_day today : Z)
    (items : list (string * string)) : exc (list (string * gap_section)) :=
  match items with
  | [] => ret []
  | (name, instrument_key) :: rest =>
      let '(ltp_330, open_915) :=
        get_bid_data w access_token instrument_key prev_day today in
      let* row := main_row ltp_330 open_915 in
      let* rows := main_rows w access_token prev_day today rest in
      ret ((name, row) :: rows)
  end.

(** [main()]: [None] is the report that no access token was found. *)
Definition main (w : World) : exc (option (Z * Z * list (string * gap_section))) :=
  match load_access_token w with
  | Some access_token =>
      if negb (String.eqb access_token "") then
        let '(prev_day, today) := get_trading_days (now w) in
        let* rows := main_rows w access_token prev_day today INSTRUMENTS in
        ret (Some (prev_day, today, rows))
      else ret None
  | None => ret None
  end.

End WithRuntime.

End Bid.

(** ** signal.py *)

Module Signal.

(** One entry of [INSTRUMENTS]. *)
Record instrument_info : Type := mkinfo {
  index_key : string;
  option_asset : string
}.

Definition INSTRUMENTS : gmap string instrument_info :=
  <[ "NIFTY" := mkinfo "NSE_INDEX|Nifty 50" "NIFTY" ]>
  (<[ "SENSEX" := mkinfo "BSE_INDEX|SENSEX" "SENSEX" ]> ∅).

Section WithRuntime.

Context {RT : PyRuntime}.

(** [calculate_dte(expiry_date, today)] *)
Definition calculate_dte (expiry_date : string) (today : datetime) : Z :=
  match strptime expiry_date with
  | Some expiry => timedelta_days expiry today
  | None => 999
  end.

(** The loop [for exp in expiries: ... break] of the selector over the
    state (dte, expiry), for the window [lo <= dte <= hi]. *)
Fixpoint first_in_window (lo hi : Z) (today : datetime)
    (expiries : list string) : Z * option string :=
  match expiries with
  | [] => (999, None)
  | exp :: rest =>
      let dte := calculate_dte exp today in
      if (lo <=? dte) && (dte <=? hi) then (dte, Some exp)
      else first_in_window lo hi today rest
  end.

(** [get_nearest_expiry_instrument(access_token)]:
    (instrument_name, expiry_date, dte). *)
Definition get_nearest_expiry_instrument (w : World) (access_token : string)
  : option string * option string * option Z :=
  let today := replace_midnight (now w) in
  let nifty_expiries := get_expiry_dates w access_token "NIFTY" in
  let sensex_expiries := get_expiry_dates w access_token "SENSEX" in
  let '(nifty_dte, nifty_expiry) := first_in_window 0 2 today nifty_expiries in
  let '(sensex_dte, sensex_expiry) :=
    first_in_window 0 1 today sensex_expiries in
  if (nifty_dte <=? sensex_dte) && str_truthy nifty_expiry then
    (Some "NIFTY"%string, nifty_expiry, Some nifty_dte)
  else if str_truthy sensex_expiry then
    (Some "SENSEX"%string, sensex_expiry, Some sensex_dte)
  else if str_truthy nifty_expiry then
    (Some "NIFTY"%string, nifty_expiry, Some nifty_dte)
  else (None, None, None).

(** [get_trading_days_bid()]: (prev_day, today, is_market_open). *)
Definition get_trading_days_bid (now : datetime) : Z * Z * bool :=
  let today := replace_midnight now in
  let today := skip_weekends today in
  let is_today_trading_day := date now =? date today in
  let is_after_market_open :=
    (9 <? hour now) || ((hour now =? 9) && (15 <=? minute now)) in
  let is_market_open := is_today_trading_day && is_after_market_open in
  let today :=
    if negb is_market_open then skip_weekends (minus_days today 1)
    else today in
  let prev_day := minus_days today 1 in
  let prev_day := skip_weekends prev_day in
  (strftime prev_day, strftime today, is_market_open).

(** [get_trading_days_pricegap()]: (date, is_data_available). *)
Definition get_trading_days_pricegap (now : datetime) : Z * bool :=
  let today := replace_midnight now in
  let today := skip_weekends today in
  let is_today_trading_day := date now =? date today in
  let is_after_close :=
    (15 <? hour now) || ((hour now =? 15) && (30 <=? minute now)) in
  let is_data_available := is_today_trading_day && is_after_close in
  let today :=
    if negb is_data_available then
      let today :=
        if is_today_trading_day then minus_days today 1 else today in
      skip_weekends today
    else today in
  (strftime today, is_data_available).

(** The choice of endpoint of [get_330_ltp] and [get_915_open]. *)
Definition candle_endpoint (w : World) (encoded_key : string) (date : Z)
  : candle_url :=
  let today := strftime (now w) in
  if date =? today then Intraday encoded_key
  else Historical encoded_key date date.

(** [get_330_ltp(access_token, instrument_key, date)] *)
Definition get_330_ltp (w : World) (access_token instrument_key : string)
    (date : Z) : option Q :=
  match http_candles w access_token (candle_endpoint w instrument_key date) with
  | Some candles => scan_330 candles
  | None => None
  end.

(** [get_915_open(access_token, instrument_key, date)] *)
Definition get_915_open (w : World) (access_token instrument_key : string)
    (date : Z) : option Q :=
  match http_candles w access_token (candle_endpoint w instrument_key date) with
  | Some candles => scan_915 candles
  | None => None
  end.

(** The ticker table of [get_daily_close]. *)
Definition yahoo_tickers : gmap string string :=
  <[ "NSE_INDEX|Nifty 50" := "^NSEI" ]> (<[ "BSE_INDEX|SENSEX" := "^BSESN" ]> ∅).

(** [get_daily_close(access_token, instrument_key, date)] *)
Definition get_daily_close (w : World) (access_token instrument_key : string)
    (date : Z) : option Q :=
  match yahoo_tickers !! instrument_key with
  | Some ticker_symbol =>
      if negb (String.eqb ticker_symbol "") then
        match yf_last_close w ticker_symbol with
        | Some close => Some (round2 close)
        | None => None
        end
      else None
  | None => None
  end.

(** [format_gap(gap, base)]: colour, arrow, direction and the two numbers
    the formatted text shows, the gap and its percentage. *)
Definition format_gap (gap base : Q)
  : exc (color * string * string * (Q * Q)) :=
  let* gap_pct :=
    if truthy (Some base) then
      let* q := py_div gap base in ret (round2 (q * 100))
    else ret 0%Q in
  if Qgtb gap 0 then ret (GREEN, "▲"%string, "Up"%string, (gap, gap_pct))
  else if Qltb gap 0 then ret (RED, "▼"%string, "Down"%string, (gap, gap_pct))
  else ret (YELLOW, "─"%string, "Flat"%string, (gap, gap_pct)).

(** [get_next_trading_day()] *)
Definition get_next_trading_day (now : datetime) : datetime :=
  let next_day := plus_days (replace_midnight now) 1 in
  skip_weekends_forward next_day.

(** The report of [main]: the header and the BID and PriceGap sections.
    The SixthSense and coverage sections that follow only print. *)
Inductive report : Type :=
| NoAccessToken
| NoValidExpiry
| Report (instrument : string) (expiry_date : option string)
    (trading_day_dte : Z) (bid pricegap : gap_section).

(** The BID section of [main]. *)
Definition bid_section (ltp_330_prev open_915_today : option Q)
    (is_market_open : bool) : exc gap_section :=
  match ltp_330_prev, open_915_today with
  | Some ltp, Some open =>
      if truthy ltp_330_prev && truthy open_915_today then
        let bid_gap := round2 (open - ltp) in
        let* (c, arrow, direction, (gap, gap_pct)) := format_gap bid_gap ltp in
        ret (GapLines ltp open gap gap_pct c arrow direction)
      else if negb is_market_open then ret MarketNotOpenYet
      else ret DataNotAvailable
  | _, _ =>
      if negb is_market_open then ret MarketNotOpenYet
      else ret DataNotAvailable
  end.

(** The PriceGap section of [main]. *)
Definition pricegap_section (ltp_330 daily_close : option Q) : exc gap_section :=
  match ltp_330, daily_close with
  | Some ltp, Some close =>
      if truthy ltp_330 && truthy daily_close then
        let pricegap := round2 (ltp - close) in
        let* (c, arrow, direction, (gap, gap_pct)) := format_gap pricegap close in
        ret (GapLines ltp close gap gap_pct c arrow direction)
      else ret DataNotAvailable
  | _, _ => ret DataNotAvailable
  end.

(** [main()] *)
Definition main (w : World) : exc report :=
  let access_token := load_access_token w in
  if negb (str_truthy access_token) then ret NoAccessToken else
  let access_token := default ""%string access_token in
  let '(instrument, expiry_date, dte) :=
    get_nearest_expiry_instrument w access_token in
  if negb (str_truthy instrument) then ret NoValidExpiry else
  let instrument := default ""%string instrument in
  let* instrument_info :=
    match INSTRUMENTS !! instrument with
    | Some info => ret info
    | None => raise (KeyError instrument)
    end in
  let index_key := index_key instrument_info in
  let '(bid_prev_day, bid_today, is_market_open) :=
    get_trading_days_bid (now w) in
  let '(pricegap_date, is_after_close) := get_trading_days_pricegap (now w) in
  let* trading_day_dte :=
    match dte with
    | Some dte => ret (Z.max 0 (dte - 1))
    | None => raise TypeError
    end in
  let ltp_330_prev := get_330_ltp w access_token index_key bid_prev_day in
  let open_915_today := get_915_open w access_token index_key bid_today in
  let* bid := bid_section ltp_330_prev open_915_today is_market_open in
  let ltp_330 := get_330_ltp w access_token index_key pricegap_date in
  let daily_close := get_daily_close w access_token index_key pricegap_date in
  let* pricegap := pricegap_section ltp_330 daily_close in
  ret (Report instrument expiry_date trading_day_dte bid pricegap).

(** [PREMIUM_PCT]: days to expiry to premium percentage. *)
Definition PREMIUM_PCT : gmap Z Q :=
  <[ 0 := 0.54%Q ]> (<[ 1 := 0.81%Q ]> (<[ 2 := 1.05%Q ]>
  (<[ 3 := 1.20%Q ]> (<[ 4 := 1.38%Q ]> ∅)))).

(** The ticker table of [get_spot_price_nse]. *)
Definition spot_tickers : gmap string string :=
  <[ "NIFTY" := "^NSEI" ]> (<[ "SENSEX" := "^BSESN" ]> ∅).

(** [get_spot_price_nse(instrument)].  [nse] is the answer of the NSE
    endpoint, which is asked for NIFTY only: [None] when the request or
    the reading of its payload fails, and otherwise the ['lastPrice']
    entry of the first record, itself [None] when the record has no such
    entry.  Without an answer the price comes from Yahoo Finance. *)
Definition get_spot_price_nse (w : World) (nse : option (option Q))
    (instrument : string) : option Q :=
  match (if String.eqb instrument "NIFTY" then nse else None) with
  | Some last_price => last_price
  | None =>
      match yf_last_close w (default "^NSEI"%string (spot_tickers !! instrument)) with
      | Some close => Some (round2 close)
      | None => None
      end
  end.

(** [get_spot_price_bse(instrument)] *)
Definition get_spot_price_bse (w : World) (instrument : string) : option Q :=
  match yf_last_close w "^BSESN" with
  | Some close => Some (round2 close)
  | None => None
  end.

(** The loop of [get_dte_for_instrument_tomorrow]: the first expiry not
    before the next trading day. *)
Fixpoint first_not_before (next_trading_day : datetime)
    (expiries : list string) : option (Z * string * Z) :=
  match expiries with
  | [] => None
  | exp :: rest =>
      let dte := calculate_dte exp next_trading_day in
      if 0 <=? dte then Some (dte, exp, strftime next_trading_day)
      else first_not_before next_trading_day rest
  end.

(** [get_dte_for_instrument_tomorrow(access_token, instrument)]; the
    tuple [(None, None, None)] is [None]. *)
Definition get_dte_for_instrument_tomorrow (w : World)
    (access_token instrument : string) : option (Z * string * Z) :=
  let next_trading_day := get_next_trading_day (now w) in
  let expiries := get_expiry_dates w access_token instrument in
  first_not_before next_trading_day expiries.

(** One line of the coverage table. *)
Inductive coverage_line : Type :=
| NoValidExpiryLine (instrument : string)
| SpotUnavailableLine (instrument : string) (dte : Z)
| PremiumLine (instrument : string) (dte : Z) (spot pct premium : Q).

(** The body of the loop of [print_coverage_premium_content] for one
    instrument: the line it prints. *)
Definition coverage_line_for (w : World) (nse : option (option Q))
    (access_token instrument : string) : coverage_line :=
  match get_dte_for_instrument_tomorrow w access_token instrument with
  | None => NoValidExpiryLine instrument
  | Some (dte, expiry, trading_date) =>
      let spot :=
        if String.eqb instrument "NIFTY" then get_spot_price_nse w nse instrument
        else get_spot_price_bse w instrument in
      match spot with
      | None => SpotUnavailableLine instrument dte
      | Some sp =>
          let pct := default 0.54%Q (PREMIUM_PCT !! dte) in
          let premium := round2 (sp * pct / 100) in
          PremiumLine instrument dte sp pct premium
      end
  end.

(** [print_coverage_premium_content(access_token)]: the lines below the
    header of the table. *)
Definition print_coverage_premium_content (w : World) (nse : option (option Q))
    (access_token : string) : list coverage_line :=
  map (coverage_line_for w nse access_token) ["NIFTY"; "SENSEX"]%string.

End WithRuntime.

End Signal.

(** ** server.py *)

Module Server.

(** One entry of [INSTRUMENTS]. *)
Record instrument_info : Type := mkinfo {
  index_key : string;
  option_asset : string
}.

Definition INSTRUMENTS : gmap string instrument_info :=
  <[ "NIFTY" := mkinfo "NSE_INDEX|Nifty 50" "NIFTY" ]>
  (<[ "SENSEX" := mkinfo "BSE_INDEX|SENSEX" "SENSEX" ]> ∅).

(** [PREMIUM_PCT]: days to expiry to premium percentage. *)
Definition PREMIUM_PCT : gmap Z Q :=
  <[ 0 := 0.54%Q ]> (<[ 1 := 0.81%Q ]> (<[ 2 := 1.05%Q ]>
  (<[ 3 := 1.20%Q ]> (<[ 4 := 1.38%Q ]> ∅)))).

(** The ["bid"] entry of the bundle. *)
Record bid_data : Type := mkbid {
  bid_ltp_330 : option Q;
  bid_open_915 : option Q;
  bid_gap : option Q;
  bid_gap_pct : option Q;
  bid_direction : option string;
  bid_prev_date : Z;
  bid_today_date : Z;
  bid_market_open : bool
}.

(** The ["pricegap"] entry of the bundle. *)
Record pricegap_data : Type := mkpricegap {
  pg_ltp_330 : option Q;
  pg_daily_close : option Q;
  pg_gap : option Q;
  pg_gap_pct : option Q;
  pg_direction : option string;
  pg_date : Z
}.

(** One entry of the ["instruments"] list of the coverage. *)
Record coverage_item : Type := mkcoverage {
  cov_name : string;
  cov_dte : Z;
  cov_spot : Q;
  cov_pct : Q;
  cov_premium : Q
}.

(** The bundle [get_all_signal_data] returns on success. *)
Record bundle : Type := mkbundle {
  instrument : string;
  expiry_date : option string;
  dte : Z;
  timestamp : datetime;
  bid : bid_data;
  pricegap : pricegap_data;
  sixthsense : list sixth_row;
  coverage_date : datetime;
  coverage_instruments : list coverage_item
}.

(** The two shapes of the dictionary [get_all_signal_data] returns. *)
Inductive response : Type :=
| Error (message : string)
| Signals (b : bundle).

Section WithRuntime.

Context {RT : PyRuntime}.

(** [calculate_dte(expiry_date, today)] *)
Definition calculate_dte (expiry_date : string) (today : datetime) : Z :=
  match strptime expiry_date with
  | Some expiry => timedelta_days expiry today
  | None => 999
  end.

(** The loop [for exp in expiries: ... break] of the selector over the
    state (dte, expiry), for the window [lo <= dte <= hi]. *)
Fixpoint first_in_window (lo hi : Z) (today : datetime)
    (expiries : list string) : Z * option string :=
  match expiries with
  | [] => (999, None)
  | exp :: rest =>
      let dte := calculate_dte exp today in
      if (lo <=? dte) && (dte <=? hi) then (dte, Some exp)
      else first_in_window lo hi today rest
  end.

(** [get_nearest_expiry_instrument(access_token)] *)
Definition get_nearest_expiry_instrument (w : World) (access_token : string)
  : option string * option string * option Z :=
  let today := replace_midnight (now w) in
  let nifty_expiries := get_expiry_dates w access_token "NIFTY" in
  let sensex_expiries := get_expiry_dates w access_token "SENSEX" in
  let '(nifty_dte, nifty_expiry) := first_in_window 0 2 today nifty_expiries in
  let '(sensex_dte, sensex_expiry) :=
    first_in_window 0 1 today sensex_expiries in
  if (nifty_dte <=? sensex_dte) && str_truthy nifty_expiry then
    (Some "NIFTY"%string, nifty_expiry, Some nifty_dte)
  else if str_truthy sensex_expiry then
    (Some "SENSEX"%string, sensex_expiry, Some sensex_dte)
  else if str_truthy nifty_expiry then
    (Some "NIFTY"%string, nifty_expiry, Some nifty_dte)
  else (None, None, None).

(** [get_trading_days_bid()]: (prev_day, today, is_market_open). *)
Definition get_trading_days_bid (now : datetime) : Z * Z * bool :=
  let today := replace_midnight now in
  let today := skip_weekends today in
  let is_today_trading_day := date now =? date today in
  let is_after_market_open :=
    (9 <? hour now) || ((hour now =? 9) && (15 <=? minute now)) in
  let is_market_open := is_today_trading_day && is_after_market_open in
  let today :=
    if negb is_market_open then skip_weekends (minus_days today 1)
    else today in
  let prev_day := minus_days today 1 in
  let prev_day := skip_weekends prev_day in
  (strftime prev_day, strftime today, is_market_open).

(** [get_trading_days_pricegap()]: (date, is_data_available). *)
Definition get_trading_days_pricegap (now : datetime) : Z * bool :=
  let today := replace_midnight now in
  let today := skip_weekends today in
  let is_today_trading_day := date now =? date today in
  let is_after_close :=
    (15 <? hour now) || ((hour now =? 15) && (30 <=? minute now)) in
  let is_data_available := is_today_trading_day && is_after_close in
  let today :=
    if negb is_data_available then
      let today :=
        if is_today_trading_day then minus_days today 1 else today in
      skip_weekends today
    else today in
  (strftime today, is_data_available).

(** The choice of endpoint of [get_330_ltp] and [get_915_open]. *)
Definition candle_endpoint (w : World) (encoded_key : string) (date : Z)
  : candle_url :=
  let today := strftime (now w) in
  if date =? today then Intraday encoded_key
  else Historical encoded_key date date.

(** [get_330_ltp(access_token, instrument_key, date)] *)
Definition get_330_ltp (w : World) (access_token instrument_key : string)
    (date : Z) : option Q :=
  match http_candles w access_token (candle_endpoint w instrument_key date) with
  | Some candles => scan_330 candles
  | None => None
  end.

(** [get_915_open(access_token, instrument_key, date)] *)
Definition get_915_open (w : World) (access_token instrument_key : string)
    (date : Z) : option Q :=
  match http_candles w access_token (candle_endpoint w instrument_key date) with
  | Some candles => scan_915 candles
  | None => None
  end.

(** The ticker table of [get_daily_close]. *)
Definition yahoo_tickers : gmap string string :=
  <[ "NSE_INDEX|Nifty 50" := "^NSEI" ]> (<[ "BSE_INDEX|SENSEX" := "^BSESN" ]> ∅).

(** [get_daily_close(instrument_key)] *)
Definition get_daily_close (w : World) (instrument_key : string) : option Q :=
  match yahoo_tickers !! instrument_key with
  | Some ticker_symbol =>
      if negb (String.eqb ticker_symbol "") then
        match yf_last_close w ticker_symbol with
        | Some close => Some (round2 close)
        | None => None
        end
      else None
  | None => None
  end.

(** The ticker table of [get_spot_price]. *)
Definition spot_tickers : gmap string string :=
  <[ "NIFTY" := "^NSEI" ]> (<[ "SENSEX" := "^BSESN" ]> ∅).

(** [get_spot_price(instrument)] *)
Definition get_spot_price (w : World) (instrument : string) : option Q :=
  match yf_last_close w (default "^NSEI"%string (spot_tickers !! instrument)) with
  | Some close => Some (round2 close)
  | None => None
  end.

(** [get_next_trading_day()] *)
Definition get_next_trading_day (now : datetime) : datetime :=
  let next_day := plus_days (replace_midnight now) 1 in
  skip_weekends_forward next_day.

(** The loop of [get_dte_for_instrument_tomorrow]: the first expiry not
    before the next trading day. *)
Fixpoint first_not_before (next_trading_day : datetime)
    (expiries : list string) : option (Z * string * Z) :=
  match expiries with
  | [] => None
  | exp :: rest =>
      let dte := calculate_dte exp next_trading_day in
      if 0 <=? dte then Some (dte, exp, strftime next_trading_day)
      else first_not_before next_trading_day rest
  end.

(** [get_dte_for_instrument_tomorrow(access_token, instrument)]; the
    tuple [(None, None, None)] is [None]. *)
Definition get_dte_for_instrument_tomorrow (w : World)
    (access_token instrument : string) : option (Z * string * Z) :=
  let next_trading_day := get_next_trading_day (now w) in
  let expiries := get_expiry_dates w access_token instrument in
  first_not_before next_trading_day expiries.

(** The gap fields of the ["bid"] and ["pricegap"] entries:
    (gap, gap_pct, direction), all [None] unless both prices are true. *)
Definition gap_fields (later earlier : option Q)
  : exc (option Q * option Q * option string) :=
  match earlier, later with
  | Some e, Some l =>
      if truthy earlier && truthy later then
        let gap := round2 (l - e) in
        let* q := py_div gap e in
        let gap_pct := round2 (q * 100) in
        ret (Some gap, Some gap_pct,
             Some (if Qgtb gap 0 then "up"%string
                   else if Qltb gap 0 then "down"%string
                   else "flat"%string))
      else ret (None, None, None)
  | _, _ => ret (None, None, None)
  end.

(** The body of the coverage loop for one instrument: the entry it
    appends, if any. *)
Definition coverage_entry (w : World) (access_token inst : string)
  : list coverage_item :=
  let r := get_dte_for_instrument_tomorrow w access_token inst in
  let spot := get_spot_price w inst in
  match r, spot with
  | Some (inst_dte, expiry, _), Some sp =>
      if truthy spot then
        let pct := default 0.54%Q (PREMIUM_PCT !! inst_dte) in
        let premium := round2 (sp * pct / 100) in
        [mkcoverage inst inst_dte sp pct premium]
      else []
  | _, _ => []
  end.

(** [get_all_signal_data()] *)
Definition get_all_signal_data (w : World) : exc response :=
  let access_token := load_access_token w in
  if negb (str_truthy access_token) then ret (Error "No access token found")
  else
  let access_token := default ""%string access_token in
  let '(instrument, expiry_date, dte) :=
    get_nearest_expiry_instrument w access_token in
  if negb (str_truthy instrument) then ret (Error "No valid expiry found")
  else
  let instrument := default ""%string instrument in
  let* info :=
    match INSTRUMENTS !! instrument with
    | Some info => ret info
    | None => raise (KeyError instrument)
    end in
  let index_key := index_key info in
  let '(bid_prev_day, bid_today, is_market_open) :=
    get_trading_days_bid (now w) in
  let ltp_330_prev := get_330_ltp w access_token index_key bid_prev_day in
  let open_915_today := get_915_open w access_token index_key bid_today in
  let* (gap, gap_pct, direction) := gap_fields open_915_today ltp_330_prev in
  let bid_data :=
    mkbid ltp_330_prev open_915_today gap gap_pct direction
          bid_prev_day bid_today is_market_open in
  let '(pricegap_date, is_after_close) := get_trading_days_pricegap (now w) in
  let ltp_330 := get_330_ltp w access_token index_key pricegap_date in
  let daily_close := get_daily_close w index_key in
  let* (gap, gap_pct, direction) := gap_fields ltp_330 daily_close in
  let pricegap_data :=
    mkpricegap ltp_330 daily_close gap gap_pct direction pricegap_date in
  let sixth_sense_data := get_sixth_sense_data w instrument 5 in
  let next_day := get_next_trading_day (now w) in
  let coverage :=
    coverage_entry w access_token "NIFTY"
    ++ coverage_entry w access_token "SENSEX" in
  let* trading_day_dte :=
    match dte with
    | Some dte => ret (Z.max 0 (dte - 1))
    | None => raise TypeError
    end in
  ret (Signals (mkbundle instrument expiry_date trading_day_dte (now w)
                  bid_data pricegap_data sixth_sense_data next_day coverage)).

End WithRuntime.

End Server.

(** ** Specification predicates *)

(** [r] is the date [d] rolled backward past any weekend: the latest
    Monday-to-Friday date on or before [d]. *)
Definition rolled_from (d r : Z) : Prop :=
  weekday_of r < 5 /\ r <= d /\ forall x, r < x <= d -> 5 <= weekday_of x.

(** The (hour, minute) a candle is stamped with, when its timestamp
    parses. *)
Definition candle_time {RT : PyRuntime} (c : candle) : option (Z * Z) :=
  match candle_datetime c with
  | Some dt => Some (hour dt, minute dt)
  | None => None
  end.

(** [t] is not after 15:29. *)
Definition before_1530 (t : Z * Z) : Prop :=
  fst t < 15 \/ (fst t = 15 /\ snd t <= 29).

(** Candle [c] is stamped [t], and [t] is not after 15:29. *)
Definition qualifies {RT : PyRuntime} (c : candle) (t : Z * Z) : Prop :=
  candle_time c = Some t /\ before_1530 t.

(** The lexicographic order on (hour, minute). *)
Definition time_le (a b : Z * Z) : Prop :=
  fst a < fst b \/ (fst a = fst b /\ snd a <= snd b).

(** [r] is the 3:30 PM LTP of [candles]: absent when no candle qualifies,
    and otherwise the close of a qualifying candle that no qualifying
    candle is stamped later than. *)
Definition is_330_ltp {RT : PyRuntime} (candles : list candle) (r : option Q)
  : Prop :=
  (r = None /\ forall c t, In c candles -> ~ qualifies c t) \/
  (exists c t,
     In c candles /\ qualifies c t /\ r = Some (c_close c) /\
     forall c' t', In c' candles -> qualifies c' t' -> time_le t' t).

(** What the loop of [get_330_ltp] knows after the candles [seen]. *)
Definition scan_330_inv {RT : PyRuntime} (seen : list candle)
    (st : option candle * option (Z * Z)) : Prop :=
  match st with
  | (None, None) => forall c t, In c seen -> ~ qualifies c t
  | (Some c, Some t) =>
      In c seen /\ qualifies c t /\
      forall c' t', In c' seen -> qualifies c' t' -> time_le t' t
  | _ => False
  end.

(** [r] is the first expiry of [expiries] whose days to expiry, as
    [dte_of] counts them, lie in the window from [lo] to [hi], with that
    count; [None] when no expiry of the list does. *)
Definition is_first_in_window (dte_of : string -> Z) (lo hi : Z)
    (expiries : list string) (r : option (string * Z)) : Prop :=
  match r with
  | Some (exp, dte) =>
      exists before after,
        expiries = before ++ exp :: after /\
        dte = dte_of exp /\ lo <= dte <= hi /\
        forall e, In e before -> ~ (lo <= dte_of e <= hi)
  | None => forall e, In e expiries -> ~ (lo <= dte_of e <= hi)
  end.

(** The choice between the two instruments: the smaller count of days
    wins, NIFTY wins a tie, and an instrument without a count loses. *)
Definition nearest_of (nifty sensex : option (string * Z))
  : option string * option string * option Z :=
  match nifty, sensex with
  | Some (ne, nd), Some (se, sd) =>
      if nd <=? sd then (Some "NIFTY"%string, Some ne, Some nd)
      else (Some "SENSEX"%string, Some se, Some sd)
  | Some (ne, nd), None => (Some "NIFTY"%string, Some ne, Some nd)
  | None, Some (se, sd) => (Some "SENSEX"%string, Some se, Some sd)
  | None, None => (None, None, None)
  end.

(** The gap record the specification asks for, from an earlier and a
    later price: the gap and its percentage of the earlier price, both
    rounded to two decimals, and a direction that follows the sign of the
    gap; [up], [down] and [flat] are the three names of the directions. *)
Definition is_gap_result (earlier later gap gap_pct : Q)
    (direction up down flat : string) : Prop :=
  gap = round2 (later - earlier) /\
  gap_pct = round2 (gap / earlier * 100) /\
  (direction = up <-> (0 < gap)%Q) /\
  (direction = down <-> (gap < 0)%Q) /\
  (direction = flat <-> (gap == 0)%Q).

(** The table of premium percentages as the specification words it. *)
Definition premium_pct (dte : Z) : Q :=
  if dte =? 0 then 0.54
  else if dte =? 1 then 0.81
  else if dte =? 2 then 1.05
  else if dte =? 3 then 1.20
  else if dte =? 4 then 1.38
  else 0.54.

(** A section of the report of signal.py shows what the gap fields of a
    bundle of server.py hold: the same two prices, gap and percentage,
    and the same direction under its capitalised name and colour; or a
    notice, when the fields are [None]. *)
Definition section_matches (s : gap_section) (first second : option Q)
    (gap gap_pct : option Q) (direction : option string) : Prop :=
  match s with
  | GapLines f sd g p c arrow dir =>
      first = Some f /\ second = Some sd /\ gap = Some g /\ gap_pct = Some p /\
      ((dir = "Up"%string /\ direction = Some "up"%string /\ c = GREEN) \/
       (dir = "Down"%string /\ direction = Some "down"%string /\ c = RED) \/
       (dir = "Flat"%string /\ direction = Some "flat"%string /\ c = YELLOW))
  | _ => gap = None /\ gap_pct = None /\ direction = None
  end.

(** ** Sample inputs *)

(** Monday 2025-01-06 at 08:00, Saturday 2025-01-04 at 10:00 and
    Wednesday 2025-01-08 at 16:00. *)
Definition monday_0800 : datetime := mkdt 739257 8 0 0 0.

Definition saturday_1000 : datetime := mkdt 739255 10 0 0 0.

Definition wednesday_1600 : datetime := mkdt 739259 16 0 0 0.

(** A runtime for the examples: it accepts the fixed-width texts
    [YYYY-MM-DD] (for [strptime]) and [YYYY-MM-DDTHH:MM:SS] (for
    [fromisoformat]) and rejects every other text. *)
Definition digit_of (c : ascii) : option Z :=
  let n := Z.of_nat (nat_of_ascii c) in
  if (48 <=? n) && (n <=? 57) then Some (n - 48) else None.

Fixpoint digits_value (acc : Z) (s : string) : option Z :=
  match s with
  | EmptyString => Some acc
  | String c rest =>
      match digit_of c with
      | Some d => digits_value (acc * 10 + d) rest
      | None => None
      end
  end.

Definition number_of (s : string) : option Z :=
  match s with
  | EmptyString => None
  | _ => digits_value 0 s
  end.

Definition is_leap (y : Z) : bool :=
  (y mod 4 =? 0) && (negb (y mod 100 =? 0) || (y mod 400 =? 0)).

Definition days_in_month (y m : Z) : Z :=
  if m =? 2 then (if is_leap y then 29 else 28)
  else if (m =? 4) || (m =? 6) || (m =? 9) || (m =? 11) then 30
  else 31.

Definition days_before_year (y : Z) : Z :=
  let p := y - 1 in p * 365 + p / 4 - p / 100 + p / 400.

Definition days_before_month (y m : Z) : Z :=
  nth (Z.to_nat (m - 1))
      [0; 31; 59; 90; 120; 151; 181; 212; 243; 273; 304; 334] 0
  + (if (2 <? m) && is_leap y then 1 else 0).

(** [date(y, m, d).toordinal()], when the date exists. *)
Definition ymd_to_ordinal (y m d : Z) : option Z :=
  if (1 <=? y) && (y <=? 9999) && (1 <=? m) && (m <=? 12)
     && (1 <=? d) && (d <=? days_in_month y m)
  then Some (days_before_year y + days_before_month y m + d)
  else None.

Definition sample_date (s : string) : option Z :=
  if (String.length s =? 10)%nat
     && String.eqb (substring 4 1 s) "-" && String.eqb (substring 7 1 s) "-"
  then
    match number_of (substring 0 4 s), number_of (substring 5 2 s),
          number_of (substring 8 2 s) with
    | Some y, Some m, Some d => ymd_to_ordinal y m d
    | _, _, _ => None
    end
  else None.

Definition sample_strptime (s : string) : option datetime :=
  match sample_date s with
  | Some o => Some (mkdt o 0 0 0 0)
  | None => None
  end.

Definition sample_fromisoformat (s : string) : option datetime :=
  if (String.length s =? 19)%nat
     && String.eqb (substring 10 1 s) "T"
     && String.eqb (substring 13 1 s) ":" && String.eqb (substring 16 1 s) ":"
  then
    match sample_date (substring 0 10 s), number_of (substring 11 2 s),
          number_of (substring 14 2 s), number_of (substring 17 2 s) with
    | Some o, Some h, Some m, Some sec =>
        if (h <? 24) && (m <? 60) && (sec <? 60) then Some (mkdt o h m sec 0)
        else None
    | _, _, _, _ => None
    end
  else None.

Definition sample_runtime : PyRuntime :=
  {| fromisoformat := sample_fromisoformat;
     strptime := sample_strptime;
     strptime_empty := eq_refl |}.

(** Minute candles of 2025-01-03 stamped 15:25, 15:29 and 15:31, and one
    whose timestamp is not a timestamp. *)
Definition candle_1525 : candle :=
  mkcandle "2025-01-03T15:25:00+05:30" 24010 24015 24005 24012.5 1000.

Definition candle_1529 : candle :=
  mkcandle "2025-01-03T15:29:00+05:30" 24012.5 24020 24000 24004.7 1200.

Definition candle_1531 : candle :=
  mkcandle "2025-01-03T15:31:00+05:30" 24004.7 24030 24001 24025 900.

Definition candle_malformed : candle :=
  mkcandle "not-a-timestamp" 1 1 1 1 1.

(** A second candle stamped 15:29, with another close. *)
Definition candle_1529_again : candle :=
  mkcandle "2025-01-03T15:29:00+05:30" 24004.7 24006 24003 24005.9 40.

(** A world on Wednesday 2025-01-08 at 16:00: NIFTY expires the next
    day, SENSEX expired the day before and expires again in six days; the
    index closed Tuesday's last minute at 24800.00 and opened Wednesday at
    24850.00. *)
Definition sample_candles (url : candle_url) : option (list candle) :=
  match url with
  | Historical _ from_date _ =>
      if from_date =? 739258 then
        Some [ mkcandle "2025-01-07T15:28:00+05:30" 24790 24795 24785 24792 800;
               mkcandle "2025-01-07T15:29:00+05:30" 24792 24805 24790 24800 950 ]
      else None
  | Intraday _ =>
      Some [ mkcandle "2025-01-08T09:15:00+05:30" 24850 24860 24840 24855 700;
             mkcandle "2025-01-08T15:29:00+05:30" 24901 24905 24895 24900.5 600;
             mkcandle "2025-01-08T15:30:00+05:30" 24900.5 24910 24900 24907 10 ]
  end.

Definition sample_world : World :=
  {| now := wednesday_1600;
     load_access_token := Some "token"%string;
     get_expiry_dates := fun _ instrument =>
       if String.eqb instrument "NIFTY" then ["2025-01-09"; "2025-01-16"]%string
       else if String.eqb instrument "SENSEX" then ["2025-01-07"; "2025-01-14"]%string
       else [];
     http_candles := fun _ url => sample_candles url;
     yf_last_close := fun ticker =>
       if String.eqb ticker "^NSEI" then Some 25000%Q
       else if String.eqb ticker "^BSESN" then Some 82000.456%Q
       else None;
     get_sixth_sense_data := fun _ _ => [] |}.

(** A world that only answers the expiry lists, for the selector. *)
Definition expiry_world (clock_now : datetime) (nifty sensex : list string)
  : World :=
  {| now := clock_now;
     load_access_token := Some "token"%string;
     get_expiry_dates := fun _ instrument =>
       if String.eqb instrument "NIFTY" then nifty
       else if String.eqb instrument "SENSEX" then sensex
       else [];
     http_candles := fun _ _ => None;
     yf_last_close := fun _ => None;
     get_sixth_sense_data := fun _ _ => [] |}.

(** * Properties *)

Lemma weekday_of_range (o : Z) : 0 <= weekday_of o <= 6.
Proof.
  unfold weekday_of. pose proof (Z.mod_pos_bound (o + 6) 7 ltac:(lia)). lia.
Qed.

Lemma weekday_of_shift (o k : Z) :
  0 <= weekday_of o - k <= 6 -> weekday_of (o - k) = weekday_of o - k.
Proof.
  unfold weekday_of. intros H.
  pose proof (Z.div_mod (o + 6) 7 ltac:(lia)) as Hd.
  symmetry. apply Z.mod_unique_pos with (q := (o + 6) / 7); lia.
Qed.

(** Closed form of the backward loop: a Saturday loses one day, a Sunday
    two, any other day none; the clock fields are untouched. *)
Lemma skip_weekends_spec (d : datetime) :
  skip_weekends d = minus_days d (Z.max 0 (weekday d - 4)).
Proof.
  funelim (skip_weekends d).
  - rewrite H. clear H Heqcall. destruct d as [o h m s u].
    unfold weekday, minus_days in *.
    cbn [ordinal hour minute second microsecond] in *.
    pose proof (weekday_of_range o).
    rewrite (weekday_of_shift o 1) by lia. f_equal. lia.
  - destruct d as [o h m s u]. unfold minus_days, weekday in *.
    cbn [ordinal hour minute second microsecond] in *. f_equal. lia.
Qed.

(** ** The trading-day resolvers *)

Lemma rolled_from_unique (d r r' : Z) :
  rolled_from d r -> rolled_from d r' -> r = r'.
Proof.
  intros (Hw & Hle & Hall) (Hw' & Hle' & Hall').
  destruct (Z.lt_trichotomy r r') as [Hlt | [Heq | Hgt]]; [|exact Heq|].
  - specialize (Hall r' ltac:(lia)). lia.
  - specialize (Hall' r ltac:(lia)). lia.
Qed.

Lemma rolled_from_closed (d : Z) :
  rolled_from d (d - Z.max 0 (weekday_of d - 4)).
Proof.
  unfold rolled_from, weekday_of. repeat split.
  - Z.to_euclidean_division_equations. lia.
  - lia.
  - intros x Hx. Z.to_euclidean_division_equations. lia.
Qed.

(** The backward loop computes the rolled date. *)
Lemma skip_weekends_rolled (d : datetime) :
  rolled_from (date d) (strftime (skip_weekends d)).
Proof.
  rewrite skip_weekends_spec. unfold date, strftime, minus_days, weekday.
  cbn [ordinal]. apply rolled_from_closed.
Qed.

Lemma skip_weekends_ordinal (d : datetime) :
  ordinal (skip_weekends d) = ordinal d - Z.max 0 (weekday_of (ordinal d) - 4).
Proof. rewrite skip_weekends_spec. reflexivity. Qed.

Lemma ordinal_minus_days (d : datetime) (n : Z) :
  ordinal (minus_days d n) = ordinal d - n.
Proof. reflexivity. Qed.

Lemma ordinal_replace_midnight (d : datetime) :
  ordinal (replace_midnight d) = ordinal d.
Proof. reflexivity. Qed.

Create Rewrite HintDb dates.

#[local] Hint Rewrite skip_weekends_ordinal ordinal_minus_days
  ordinal_replace_midnight : dates.

(** The test on [now.hour] and [now.minute] is the comparison of the
    clock time with [h:m]. *)
Lemma clock_test (now : datetime) (h m : Z) :
  valid_datetime now -> 0 <= m < 60 ->
  ((h <? hour now) || ((hour now =? h) && (m <=? minute now)) = true
   <-> clock h m <= time_of_day now).
Proof.
  unfold valid_datetime, clock, time_of_day.
  intros (_ & Hh & Hm & Hs & Hu) Hm'.
  rewrite orb_true_iff, andb_true_iff, Z.ltb_lt, Z.eqb_eq, Z.leb_le.
  split.
  - intros [Hlt | [-> Hle]]; nia.
  - intros Hle. destruct (Z.lt_trichotomy h (hour now)) as [?|[?|?]].
    + left. assumption.
    + right. subst h. split; [reflexivity|]. nia.
    + exfalso. nia.
Qed.

(** The two copies of the resolvers in signal.py and server.py are the
    same functions. *)
Lemma server_bid_same (now : datetime) :
  Server.get_trading_days_bid now = Signal.get_trading_days_bid now.
Proof. reflexivity. Qed.

Lemma server_pricegap_same (now : datetime) :
  Server.get_trading_days_pricegap now = Signal.get_trading_days_pricegap now.
Proof. reflexivity. Qed.

Ltac unfold_resolvers :=
  unfold Signal.get_trading_days_bid, Signal.get_trading_days_pricegap,
    Server.get_trading_days_bid, Server.get_trading_days_pricegap,
    Bid.get_trading_days, date, strftime in *.

Ltac week_arith :=
  unfold weekday_of in *; Z.to_euclidean_division_equations; lia.

(** C1. For a wall-clock time [now], the BID resolver of signal.py and of
    server.py reports the market open exactly when the date of [now] is
    its own weekend-rolled date and the clock is at or after 09:15; when
    the market is open the returned today is that rolled date, and when
    it is not, the returned today is the rolled date moved back one day
    and rolled past the weekend again, so that a Monday before 09:15
    resolves to the Friday three days earlier. *)
Theorem bid_market_open_rule (now : datetime) :
  valid_datetime now ->
  exists rolled,
    rolled_from (date now) rolled /\
    Server.get_trading_days_bid now = Signal.get_trading_days_bid now /\
    (snd (Signal.get_trading_days_bid now) = true
       <-> date now = rolled /\ clock 9 15 <= time_of_day now) /\
    (snd (Signal.get_trading_days_bid now) = true ->
       snd (fst (Signal.get_trading_days_bid now)) = rolled) /\
    (snd (Signal.get_trading_days_bid now) = false ->
       rolled_from (rolled - 1) (snd (fst (Signal.get_trading_days_bid now)))) /\
    (weekday now = 0 -> time_of_day now < clock 9 15 ->
       snd (fst (Signal.get_trading_days_bid now)) = date now - 3 /\
       weekday_of (date now - 3) = 4).
Proof.
  intros Hv.
  exists (strftime (skip_weekends (replace_midnight now))).
  pose proof (clock_test now 9 15 Hv ltac:(lia)) as Hclock.
  split; [apply (skip_weekends_rolled (replace_midnight now))|].
  split; [reflexivity|].
  unfold_resolvers. cbn [fst snd].
  set (rolled := ordinal (skip_weekends (replace_midnight now))) in *.
  set (after := (9 <? hour now) || ((hour now =? 9) && (15 <=? minute now))) in *.
  assert (Hrolled : rolled = ordinal now - Z.max 0 (weekday_of (ordinal now) - 4)).
  { unfold rolled. rewrite skip_weekends_ordinal. reflexivity. }
  split; [split|split; [|split]].
  - intros H. apply andb_true_iff in H as [H1 H2]. split.
    + apply Z.eqb_eq in H1. exact H1.
    + apply Hclock. exact H2.
  - intros [H1 H2]. apply andb_true_iff. split.
    + apply Z.eqb_eq. exact H1.
    + apply Hclock. exact H2.
  - intros H. rewrite H. reflexivity.
  - intros H. rewrite H. cbn [negb].
    rewrite skip_weekends_ordinal. unfold minus_days. cbn [ordinal].
    fold rolled. rewrite Hrolled. apply rolled_from_closed.
  - intros Hmon Hbefore.
    assert (Hafter : after = false).
    { apply not_true_is_false. intros E. apply Hclock in E. lia. }
    rewrite Hafter, andb_false_r. cbn [negb].
    rewrite skip_weekends_ordinal. unfold minus_days. cbn [ordinal].
    fold rolled. unfold weekday in Hmon. split; week_arith.
Qed.

(** The BID resolver stays within four days before [now]. *)
Lemma bid_days_within_four_days (now : datetime) :
  let '(prev_day, today, _) := Signal.get_trading_days_bid now in
  date now - 4 <= prev_day /\ prev_day < today /\ today <= date now.
Proof.
  unfold_resolvers. cbn [fst snd]. set (opened := _ && _).
  destruct opened; cbn [negb]; autorewrite with dates; week_arith.
Qed.

(** C2. For every wall-clock time [now], weekends included, the dates the
    BID resolver and the PriceGap resolver return fall on Monday to
    Friday, and the BID resolver's prev_day lies at least one calendar
    day before its today: it is the day before today, rolled past the
    weekend. *)
Theorem resolvers_return_weekdays (now : datetime) :
  let '(prev_day, today, _) := Signal.get_trading_days_bid now in
  let '(pricegap_date, _) := Signal.get_trading_days_pricegap now in
  (0 <= weekday_of prev_day < 5) /\
  (0 <= weekday_of today < 5) /\
  (0 <= weekday_of pricegap_date < 5) /\
  prev_day <= today - 1 /\
  rolled_from (today - 1) prev_day.
Proof.
  unfold_resolvers. cbn [fst snd].
  set (opened := _ && _). set (available := _ && _).
  set (trading := ordinal now =? _).
  split; [|split; [|split; [|split]]].
  - destruct opened; cbn [negb]; autorewrite with dates; week_arith.
  - destruct opened; cbn [negb]; autorewrite with dates; week_arith.
  - destruct available, trading; cbn [negb]; autorewrite with dates; week_arith.
  - destruct opened; cbn [negb]; autorewrite with dates; week_arith.
  - rewrite skip_weekends_ordinal, ordinal_minus_days. apply rolled_from_closed.
Qed.

(** C3. For a wall-clock time [now], the PriceGap resolver of signal.py
    and of server.py reports data available exactly when the date of
    [now] is its own weekend-rolled date and the clock is at or after
    15:30, and then returns that date; otherwise it moves the rolled date
    back one day only when it was the date of [now], and returns the
    result rolled past the weekend. *)
Theorem pricegap_data_available_rule (now : datetime) :
  valid_datetime now ->
  exists rolled,
    rolled_from (date now) rolled /\
    Server.get_trading_days_pricegap now = Signal.get_trading_days_pricegap now /\
    (snd (Signal.get_trading_days_pricegap now) = true
       <-> rolled = date now /\ clock 15 30 <= time_of_day now) /\
    (snd (Signal.get_trading_days_pricegap now) = true ->
       fst (Signal.get_trading_days_pricegap now) = rolled) /\
    (snd (Signal.get_trading_days_pricegap now) = false ->
       rolled_from (if rolled =? date now then rolled - 1 else rolled)
                   (fst (Signal.get_trading_days_pricegap now))).
Proof.
  intros Hv.
  exists (strftime (skip_weekends (replace_midnight now))).
  pose proof (clock_test now 15 30 Hv ltac:(lia)) as Hclock.
  split; [apply (skip_weekends_rolled (replace_midnight now))|].
  split; [reflexivity|].
  unfold_resolvers. cbn [fst snd].
  set (rolled := ordinal (skip_weekends (replace_midnight now))) in *.
  split; [split|split].
  - intros H. apply andb_true_iff in H as [H1 H2]. split.
    + apply Z.eqb_eq in H1. symmetry. exact H1.
    + apply Hclock. exact H2.
  - intros [H1 H2]. apply andb_true_iff. split.
    + apply Z.eqb_eq. symmetry. exact H1.
    + apply Hclock. exact H2.
  - intros H. rewrite H. reflexivity.
  - intros H. rewrite H. cbn [negb].
    rewrite skip_weekends_ordinal. rewrite (Z.eqb_sym rolled).
    destruct (ordinal now =? rolled); unfold minus_days; cbn [ordinal];
      fold rolled; apply rolled_from_closed.
Qed.

(** The pair of dates bid.py returns, compared with the one signal.py
    returns: the same on Monday to Friday, one trading day later on a
    Saturday or a Sunday. *)
Lemma bid_py_versus_signal_py (now : datetime) :
  let '(prev_day, today, _) := Signal.get_trading_days_bid now in
  (weekday now < 5 -> Bid.get_trading_days now = (prev_day, today)) /\
  (5 <= weekday now -> fst (Bid.get_trading_days now) = today).
Proof.
  unfold_resolvers. unfold weekday. cbn [fst snd].
  assert (Hflip : (hour now <? 9) || ((hour now =? 9) && (minute now <? 15))
                  = negb ((9 <? hour now) || ((hour now =? 9) && (15 <=? minute now)))).
  { destruct (Z.lt_trichotomy (hour now) 9) as [?|[?|?]];
      destruct (Z.lt_ge_cases (minute now) 15);
      repeat match goal with
             | |- context [?a <? ?b] => destruct (Z.ltb_spec a b); try lia
             | |- context [?a <=? ?b] => destruct (Z.leb_spec a b); try lia
             | |- context [?a =? ?b] => destruct (Z.eqb_spec a b); try lia
             end; reflexivity. }
  rewrite Hflip. set (after := (9 <? hour now) || _).
  split.
  - intros Hwd.
    assert (Htrading :
      (ordinal now =? ordinal (skip_weekends (replace_midnight now))) = true).
    { apply Z.eqb_eq. autorewrite with dates. lia. }
    rewrite Htrading. cbn [andb].
    destruct after; cbn [negb]; autorewrite with dates; f_equal; week_arith.
  - intros Hwd.
    assert (Htrading :
      (ordinal now =? ordinal (skip_weekends (replace_midnight now))) = false).
    { apply Z.eqb_neq. autorewrite with dates. lia. }
    rewrite Htrading. cbn [andb negb].
    destruct after; cbn [negb]; autorewrite with dates; week_arith.
Qed.

(** C9, as the code has it.  When the date of [now] is a Monday to Friday,
    [get_trading_days] of bid.py returns the pair of dates that
    [get_trading_days_bid] of signal.py and of server.py return, and the
    latter two agree. *)
Theorem bid_resolvers_agree_on_weekdays (now : datetime) :
  weekday now < 5 ->
  Bid.get_trading_days now = fst (Signal.get_trading_days_bid now) /\
  Signal.get_trading_days_bid now = Server.get_trading_days_bid now.
Proof.
  intros Hwd. split; [|reflexivity].
  pose proof (bid_py_versus_signal_py now) as H.
  destruct (Signal.get_trading_days_bid now) as [[prev_day today] opened].
  destruct H as [H _]. cbn [fst]. apply H. exact Hwd.
Qed.

Lemma bid_resolvers_agree_on_weekdays_witness :
  weekday monday_0800 < 5 /\
  Bid.get_trading_days monday_0800 = (739253, 739254) /\
  Server.get_trading_days_bid monday_0800 = (739253, 739254, false).
Proof.
  assert (Hwd : weekday monday_0800 < 5) by (vm_compute; reflexivity).
  destruct (bid_resolvers_agree_on_weekdays monday_0800 Hwd) as [H1 H2].
  split; [exact Hwd|]. split.
  - rewrite H1. vm_compute. reflexivity.
  - rewrite <- H2. vm_compute. reflexivity.
Defined.

(** C9 fails on a weekend: on Saturday 2025-01-04 at 10:00 bid.py answers
    (Thursday, Friday) and signal.py (Wednesday, Thursday). *)
Lemma bid_resolvers_differ_on_saturday :
  Bid.get_trading_days saturday_1000 = (739253, 739254) /\
  fst (Signal.get_trading_days_bid saturday_1000) = (739252, 739253) /\
  fst (Server.get_trading_days_bid saturday_1000) = (739252, 739253) /\
  Bid.get_trading_days saturday_1000
    <> fst (Signal.get_trading_days_bid saturday_1000).
Proof.
  repeat split; try (vm_compute; reflexivity).
  vm_compute. intros H. discriminate H.
Qed.

Lemma bid_market_open_rule_witness :
  valid_datetime monday_0800 /\
  snd (fst (Signal.get_trading_days_bid monday_0800)) = date monday_0800 - 3.
Proof.
  assert (Hv : valid_datetime monday_0800) by (vm_compute; intuition discriminate).
  split; [exact Hv|].
  destruct (bid_market_open_rule monday_0800 Hv) as (rolled & _ & _ & _ & _ & _ & H).
  apply H; vm_compute; reflexivity.
Defined.

Lemma pricegap_data_available_rule_witness :
  valid_datetime wednesday_1600 /\
  fst (Signal.get_trading_days_pricegap wednesday_1600) = date wednesday_1600.
Proof.
  assert (Hv : valid_datetime wednesday_1600) by (vm_compute; intuition discriminate).
  split; [exact Hv|].
  destruct (pricegap_data_available_rule wednesday_1600 Hv)
    as (rolled & Hr & _ & Hiff & Htrue & _).
  assert (Hav : snd (Signal.get_trading_days_pricegap wednesday_1600) = true)
    by (vm_compute; reflexivity).
  rewrite (Htrue Hav). apply Hiff in Hav. apply Hav.
Defined.

(** ** The 3:30 PM candle scan *)

Section ScanProperties.

Context {RT : PyRuntime}.

Lemma tuple_gt_spec (a b : Z * Z) : tuple_gt a b = true <-> ~ time_le a b.
Proof.
  destruct a as [h m], b as [h' m']. unfold tuple_gt, time_le. cbn [fst snd].
  rewrite orb_true_iff, andb_true_iff, !Z.ltb_lt, Z.eqb_eq. lia.
Qed.

Lemma time_le_trans (a b c : Z * Z) : time_le a b -> time_le b c -> time_le a c.
Proof. unfold time_le. lia. Qed.

Lemma time_le_total (a b : Z * Z) : time_le a b \/ time_le b a.
Proof. unfold time_le. lia. Qed.

Lemma time_le_refl (a : Z * Z) : time_le a a.
Proof. unfold time_le. lia. Qed.

(** A candle whose timestamp does not parse leaves the state as it is. *)
Lemma scan_330_step_malformed st c :
  candle_datetime c = None -> scan_330_step st c = st.
Proof.
  intros H. unfold scan_330_step. destruct st as [bc bt]. rewrite H. reflexivity.
Qed.

(** So does a candle stamped 15:30 or later. *)
Lemma scan_330_step_late st c dt :
  candle_datetime c = Some dt ->
  ~ before_1530 (hour dt, minute dt) ->
  scan_330_step st c = st.
Proof.
  intros H Hlate. unfold scan_330_step. destruct st as [bc bt]. rewrite H.
  unfold before_1530 in Hlate. cbn [fst snd] in Hlate.
  destruct (Z.eqb_spec (hour dt) 15), (Z.leb_spec (minute dt) 29),
    (Z.ltb_spec (hour dt) 15); cbn [andb]; try reflexivity; lia.
Qed.

(** A candle not after 15:29 replaces the best one exactly when it is
    stamped strictly later. *)
Lemma scan_330_step_qualifying bc bt c t :
  qualifies c t ->
  scan_330_step (bc, bt) c =
    if match bt with None => true | Some b => tuple_gt t b end
    then (Some c, Some t) else (bc, bt).
Proof.
  intros [Ht Hq]. unfold candle_time in Ht. unfold scan_330_step.
  destruct (candle_datetime c) as [dt|]; [|discriminate].
  injection Ht as <-. unfold before_1530 in Hq. cbn [fst snd] in Hq.
  destruct (Z.eqb_spec (hour dt) 15), (Z.leb_spec (minute dt) 29),
    (Z.ltb_spec (hour dt) 15); cbn [andb]; try reflexivity; lia.
Qed.

Lemma qualifies_time_unique c t t' : qualifies c t -> qualifies c t' -> t = t'.
Proof. intros [H _] [H' _]. rewrite H in H'. injection H' as <-. reflexivity. Qed.

Lemma qualifies_dec c : (exists t, qualifies c t) \/ (forall t, ~ qualifies c t).
Proof.
  unfold qualifies, candle_time, before_1530.
  destruct (candle_datetime c) as [dt|].
  - destruct (Z_lt_dec (hour dt) 15) as [?|?];
      [|destruct (Z.eq_dec (hour dt) 15) as [?|?];
        [destruct (Z_le_dec (minute dt) 29) as [?|?]|]].
    1,2: left; exists (hour dt, minute dt); cbn [fst snd]; split; [reflexivity|lia].
    all: right; intros t [Ht Hb]; injection Ht as <-; cbn [fst snd] in Hb; lia.
  - right. intros t [Ht _]. discriminate Ht.
Qed.

(** A candle that does not qualify leaves the state as it is. *)
Lemma scan_330_step_skip st c :
  (forall t, ~ qualifies c t) -> scan_330_step st c = st.
Proof.
  intros Hnq. destruct (candle_datetime c) as [dt|] eqn:Hdt.
  - apply (scan_330_step_late st c dt Hdt). intros Hb.
    apply (Hnq (hour dt, minute dt)). split; [|exact Hb].
    unfold candle_time. rewrite Hdt. reflexivity.
  - apply scan_330_step_malformed. exact Hdt.
Qed.

Lemma scan_330_inv_skip seen st c :
  (forall t, ~ qualifies c t) ->
  scan_330_inv seen st -> scan_330_inv (seen ++ [c]) st.
Proof.
  intros Hnq Hinv. destruct st as [[b|] [t|]]; cbn in *; try contradiction.
  - destruct Hinv as (Hin & Hq & Hmax). split; [|split].
    + apply in_or_app. left. exact Hin.
    + exact Hq.
    + intros c' t' Hin' Hq'. apply in_app_or in Hin' as [Hin'|[<-|[]]].
      * eapply Hmax; eassumption.
      * exfalso. eapply Hnq. exact Hq'.
  - intros c' t' Hin' Hq'. apply in_app_or in Hin' as [Hin'|[<-|[]]].
    + eapply Hinv; eassumption.
    + eapply Hnq. exact Hq'.
Qed.

Lemma scan_330_inv_take seen bc bt c t :
  qualifies c t ->
  scan_330_inv seen (bc, bt) ->
  match bt with None => True | Some b => ~ time_le t b end ->
  scan_330_inv (seen ++ [c]) (Some c, Some t).
Proof.
  intros Hq Hinv Hlater. cbn. split; [|split].
  - apply in_or_app. right. left. reflexivity.
  - exact Hq.
  - intros c' t' Hin' Hq'. apply in_app_or in Hin' as [Hin'|[<-|[]]].
    + destruct bc as [b|], bt as [tb|]; cbn in Hinv; try contradiction.
      * destruct Hinv as (_ & _ & Hmax). specialize (Hmax c' t' Hin' Hq').
        destruct (time_le_total t tb) as [?|Hle]; [contradiction|].
        eapply time_le_trans; eassumption.
      * exfalso. eapply Hinv; eassumption.
    + rewrite (qualifies_time_unique _ _ _ Hq Hq'). apply time_le_refl.
Qed.

Lemma scan_330_inv_keep seen b tb c t :
  qualifies c t ->
  scan_330_inv seen (Some b, Some tb) ->
  time_le t tb ->
  scan_330_inv (seen ++ [c]) (Some b, Some tb).
Proof.
  intros Hq (Hin & Hqb & Hmax) Hle. cbn. split; [|split].
  - apply in_or_app. left. exact Hin.
  - exact Hqb.
  - intros c' t' Hin' Hq'. apply in_app_or in Hin' as [Hin'|[<-|[]]].
    + eapply Hmax; eassumption.
    + rewrite <- (qualifies_time_unique _ _ _ Hq Hq'). exact Hle.
Qed.

(** One turn of the loop keeps the invariant. *)
Lemma scan_330_step_inv seen st c :
  scan_330_inv seen st -> scan_330_inv (seen ++ [c]) (scan_330_step st c).
Proof.
  intros Hinv. destruct (qualifies_dec c) as [[t Hq]|Hnq].
  - destruct st as [bc bt]. rewrite (scan_330_step_qualifying bc bt c t Hq).
    destruct bt as [tb|].
    + destruct (tuple_gt t tb) eqn:Hgt.
      * apply tuple_gt_spec in Hgt.
        eapply scan_330_inv_take; [exact Hq|exact Hinv|exact Hgt].
      * destruct bc as [b|]; [|contradiction].
        apply scan_330_inv_keep with (t := t); [exact Hq|exact Hinv|].
        destruct (time_le_total t tb) as [Hle|Hle]; [exact Hle|].
        apply not_true_iff_false in Hgt. rewrite tuple_gt_spec in Hgt.
        unfold time_le in *. lia.
    + eapply scan_330_inv_take; [exact Hq|exact Hinv|exact I].
  - rewrite (scan_330_step_skip st c Hnq). apply scan_330_inv_skip; assumption.
Qed.

Lemma scan_330_fold_inv candles seen st :
  scan_330_inv seen st ->
  scan_330_inv (seen ++ candles) (fold_left scan_330_step candles st).
Proof.
  revert seen st. induction candles as [|c rest IH]; intros seen st Hinv.
  - rewrite app_nil_r. exact Hinv.
  - cbn [fold_left].
    replace (seen ++ c :: rest) with ((seen ++ [c]) ++ rest)
      by (rewrite <- app_assoc; reflexivity).
    apply IH. apply scan_330_step_inv. exact Hinv.
Qed.

(** The scan returns the 3:30 PM LTP of the candles. *)
Lemma scan_330_correct candles : is_330_ltp candles (scan_330 candles).
Proof.
  pose proof (scan_330_fold_inv candles [] (None, None)) as H.
  cbn [app] in H. specialize (H ltac:(cbn; intros c t [])).
  unfold scan_330, is_330_ltp.
  destruct (fold_left scan_330_step candles (None, None)) as [[b|] [t|]];
    cbn in H; try contradiction.
  - right. exists b, t. destruct H as (Hin & Hq & Hmax). auto.
  - left. auto.
Qed.

(** Dropping a candle that does not qualify does not change the scan. *)
Lemma scan_330_drop before c after :
  (forall t, ~ qualifies c t) ->
  scan_330 (before ++ c :: after) = scan_330 (before ++ after).
Proof.
  intros Hnq. unfold scan_330. rewrite !fold_left_app. cbn [fold_left].
  rewrite (scan_330_step_skip _ c Hnq). reflexivity.
Qed.

End ScanProperties.

(** C4. For every sequence of minute candles, the 3:30 PM LTP that the
    scan of [get_330_ltp] returns is the close of a candle stamped not
    after 15:29 whose (hour, minute) no such candle exceeds, and is absent
    when no candle is stamped not after 15:29; a candle stamped 15:30 or
    later, or with a timestamp that does not parse, can be removed from
    the sequence without changing the result; of three candles stamped
    15:25, 15:29 and 15:31, in any order, the close of the 15:29 one is
    returned; and [get_330_ltp] of bid.py, signal.py and server.py return
    the result of this scan on the candles the provider answers with. *)
Theorem ltp_330_is_close_of_latest_candle {RT : PyRuntime}
    (w : World) (access_token instrument_key : string) (day : Z)
    (candles : list candle) :
  is_330_ltp candles (scan_330 candles) /\
  (forall before c after dt,
     candles = before ++ c :: after ->
     candle_datetime c = Some dt ->
     (15 < hour dt \/ (hour dt = 15 /\ 30 <= minute dt)) ->
     scan_330 candles = scan_330 (before ++ after)) /\
  (forall before c after,
     candles = before ++ c :: after ->
     candle_datetime c = None ->
     scan_330 candles = scan_330 (before ++ after)) /\
  (forall c25 c29 c31,
     candle_time c25 = Some (15, 25) ->
     candle_time c29 = Some (15, 29) ->
     candle_time c31 = Some (15, 31) ->
     Permutation [c25; c29; c31] candles ->
     scan_330 candles = Some (c_close c29)) /\
  (http_candles w access_token (Historical instrument_key day day) = Some candles ->
     Bid.get_330_ltp w access_token instrument_key day = scan_330 candles) /\
  (http_candles w access_token (Signal.candle_endpoint w instrument_key day)
     = Some candles ->
     Signal.get_330_ltp w access_token instrument_key day = scan_330 candles /\
     Server.get_330_ltp w access_token instrument_key day = scan_330 candles).
Proof.
  split; [apply scan_330_correct|].
  split; [|split; [|split; [|split]]].
  - intros before c after dt -> Hdt Hlate. apply scan_330_drop.
    intros t [Ht Hb]. unfold candle_time in Ht. rewrite Hdt in Ht.
    injection Ht as <-. unfold before_1530 in Hb. cbn [fst snd] in Hb. lia.
  - intros before c after -> Hdt. apply scan_330_drop.
    intros t [Ht _]. unfold candle_time in Ht. rewrite Hdt in Ht. discriminate.
  - intros c25 c29 c31 H25 H29 H31 Hperm.
    assert (Hq29 : qualifies c29 (15, 29)).
    { split; [exact H29|]. unfold before_1530. cbn [fst snd]. lia. }
    assert (Hin29 : In c29 candles).
    { eapply Permutation_in; [exact Hperm|]. right. left. reflexivity. }
    destruct (scan_330_correct candles) as [[_ Hnone]|(c & t & Hin & Hq & -> & Hmax)].
    + exfalso. eapply Hnone; eassumption.
    + f_equal. f_equal.
      apply (Permutation_in _ (Permutation_sym Hperm)) in Hin.
      specialize (Hmax c29 (15, 29) Hin29 Hq29).
      destruct Hin as [<-|[<-|[<-|[]]]].
      * destruct Hq as [Ht _]. rewrite H25 in Ht. injection Ht as <-.
        unfold time_le in Hmax. cbn [fst snd] in Hmax. lia.
      * reflexivity.
      * destruct Hq as [Ht Hb]. rewrite H31 in Ht. injection Ht as <-.
        unfold before_1530 in Hb. cbn [fst snd] in Hb. lia.
  - intros H. unfold Bid.get_330_ltp. rewrite H. reflexivity.
  - intros H. unfold Signal.get_330_ltp, Server.get_330_ltp.
    change (Server.candle_endpoint w instrument_key day)
      with (Signal.candle_endpoint w instrument_key day).
    rewrite H. split; reflexivity.
Qed.

(** The scan on the sample candles, with a malformed one among them. *)
Example scan_330_sample :
  @scan_330 sample_runtime
    [candle_1525; candle_malformed; candle_1531; candle_1529] = Some 24004.7%Q
  /\ @scan_330 sample_runtime [candle_1531; candle_malformed] = None.
Proof. split; vm_compute; reflexivity. Qed.

(** ** The expiry selector *)

Section SelectorProperties.

Context {RT : PyRuntime}.

(** The result of the loop of the selector, as an optional pair. *)
Lemma first_in_window_spec (lo hi : Z) (today : datetime) (expiries : list string) :
  hi < 999 ->
  exists r,
    is_first_in_window (fun e => Signal.calculate_dte e today) lo hi expiries r /\
    Signal.first_in_window lo hi today expiries =
      match r with
      | Some (exp, dte) => (dte, Some exp)
      | None => (999, None)
      end /\
    match r with
    | Some (exp, _) => str_truthy (Some exp) = true
    | None => True
    end.
Proof.
  intros Hhi. induction expiries as [|e rest IH].
  - exists None. cbn. repeat split. intros e [].
  - cbn [Signal.first_in_window].
    destruct ((lo <=? Signal.calculate_dte e today)
              && (Signal.calculate_dte e today <=? hi)) eqn:Hin.
    + apply andb_true_iff in Hin as [H1 H2].
      apply Z.leb_le in H1. apply Z.leb_le in H2.
      exists (Some (e, Signal.calculate_dte e today)). split; [|split].
      * exists [], rest. cbn. split; [reflexivity|]. split; [reflexivity|].
        split; [lia|]. intros e' [].
      * reflexivity.
      * cbn. destruct (String.eqb_spec e ""%string) as [->|]; [|reflexivity].
        unfold Signal.calculate_dte in H2. rewrite strptime_empty in H2. lia.
    + destruct IH as (r & Hspec & Heq & Htruthy). exists r.
      assert (Hout : ~ (lo <= Signal.calculate_dte e today <= hi)).
      { intros [H1 H2]. apply Z.leb_le in H1. apply Z.leb_le in H2.
        rewrite H1, H2 in Hin. discriminate. }
      split; [|split; assumption].
      destruct r as [[exp dte]|]; cbn in *.
      * destruct Hspec as (before & after & -> & Hd & Hw & Hbefore).
        exists (e :: before), after. repeat split; try assumption; try lia.
        intros e' [<-|Hin']; [exact Hout|apply Hbefore; exact Hin'].
      * intros e' [<-|Hin']; [exact Hout|apply Hspec; exact Hin'].
Qed.

End SelectorProperties.

(** C7. For every pair of expiry lists, the selector takes for NIFTY the
    first expiry whose days to expiry lie in 0..2 and for SENSEX the first
    whose days to expiry lie in 0..1; with both it returns the one with
    the fewer days and NIFTY on a tie, with one it returns that one, and
    with none it returns the triple of [None]. *)
Theorem nearest_expiry_selection {RT : PyRuntime} (w : World) (access_token : string) :
  let today := replace_midnight (now w) in
  exists nifty sensex,
    is_first_in_window (fun e => Signal.calculate_dte e today) 0 2
      (get_expiry_dates w access_token "NIFTY") nifty /\
    is_first_in_window (fun e => Signal.calculate_dte e today) 0 1
      (get_expiry_dates w access_token "SENSEX") sensex /\
    Signal.get_nearest_expiry_instrument w access_token = nearest_of nifty sensex /\
    Server.get_nearest_expiry_instrument w access_token = nearest_of nifty sensex.
Proof.
  intros today.
  destruct (first_in_window_spec 0 2 today (get_expiry_dates w access_token "NIFTY")
              ltac:(lia)) as (nifty & Hn & Hneq & Hnt).
  destruct (first_in_window_spec 0 1 today (get_expiry_dates w access_token "SENSEX")
              ltac:(lia)) as (sensex & Hs & Hseq & Hst).
  exists nifty, sensex. split; [exact Hn|]. split; [exact Hs|].
  assert (Hsig : Signal.get_nearest_expiry_instrument w access_token
                 = nearest_of nifty sensex).
  { unfold Signal.get_nearest_expiry_instrument. fold today.
    rewrite Hneq, Hseq.
    destruct nifty as [[ne nd]|], sensex as [[se sd]|]; cbn [nearest_of].
    - rewrite Hnt, Hst. rewrite andb_true_r.
      destruct (nd <=? sd); reflexivity.
    - rewrite Hnt. cbn [str_truthy]. rewrite andb_true_r.
      destruct Hn as (b & a & _ & _ & Hw & _).
      destruct (Z.leb_spec nd 999); [reflexivity|lia].
    - rewrite Hst. cbn [str_truthy]. rewrite andb_false_r. reflexivity.
    - cbn [str_truthy]. rewrite andb_false_r. reflexivity. }
  split; [exact Hsig|]. rewrite <- Hsig. reflexivity.
Qed.

(** The two tie-break cases of the specification, on Wednesday
    2025-01-08: both instruments one day from expiry give NIFTY; NIFTY at
    two days and SENSEX at one give SENSEX. *)
Example nearest_expiry_tie_breaks :
  @Signal.get_nearest_expiry_instrument sample_runtime
    (expiry_world wednesday_1600 ["2025-01-02"; "2025-01-09"] ["2025-01-09"])
    "token"
    = (Some "NIFTY", Some "2025-01-09", Some 1)%string /\
  @Signal.get_nearest_expiry_instrument sample_runtime
    (expiry_world wednesday_1600 ["2025-01-10"] ["2025-01-09"]) "token"
    = (Some "SENSEX", Some "2025-01-09", Some 1)%string /\
  @Signal.get_nearest_expiry_instrument sample_runtime
    (expiry_world wednesday_1600 ["2025-01-11"; "garbage"] ["2025-01-10"])
    "token"
    = (None, None, None).
Proof. repeat split; vm_compute; reflexivity. Qed.

(** ** Gaps *)

Lemma truthy_Some (q : Q) : truthy (Some q) = true <-> ~ (q == 0)%Q.
Proof.
  cbn [truthy]. rewrite negb_true_iff, <- not_true_iff_false, Qeq_bool_iff.
  reflexivity.
Qed.

Lemma truthy_zero (q : Q) : (q == 0)%Q -> truthy (Some q) = false.
Proof.
  intros H. apply not_true_iff_false. rewrite truthy_Some. tauto.
Qed.

Lemma Qgtb_spec (x : Q) : Qgtb x 0 = true <-> (0 < x)%Q.
Proof.
  unfold Qgtb. rewrite negb_true_iff, <- not_true_iff_false, Qle_bool_iff.
  split; [apply Qnot_le_lt|apply Qlt_not_le].
Qed.

Lemma Qltb_spec (x : Q) : Qltb x 0 = true <-> (x < 0)%Q.
Proof.
  unfold Qltb. rewrite negb_true_iff, <- not_true_iff_false, Qle_bool_iff.
  split; [apply Qnot_le_lt|apply Qlt_not_le].
Qed.

(** The division of the gap by a true base does not raise. *)
Lemma py_div_truthy (x y : Q) :
  truthy (Some y) = true -> py_div x y = ret (x / y)%Q.
Proof.
  cbn [truthy]. rewrite negb_true_iff. unfold py_div. intros ->. reflexivity.
Qed.

(** The direction chosen by the two sign tests. *)
Lemma direction_by_sign (gap : Q) (up down flat : string) :
  up <> down -> up <> flat -> down <> flat ->
  let direction :=
    if Qgtb gap 0 then up else if Qltb gap 0 then down else flat in
  (direction = up <-> (0 < gap)%Q) /\
  (direction = down <-> (gap < 0)%Q) /\
  (direction = flat <-> (gap == 0)%Q).
Proof.
  intros Hud Huf Hdf. cbn zeta.
  pose proof (Qgtb_spec gap) as Hgt. pose proof (Qltb_spec gap) as Hlt.
  destruct (Qgtb gap 0); [|destruct (Qltb gap 0)].
  - assert (0 < gap)%Q as Hpos by (apply Hgt; reflexivity).
    split; [tauto|]. split.
    + split; [congruence|]. intros Hneg. exfalso.
      apply (Qlt_irrefl 0). eapply Qlt_trans; eassumption.
    + split; [congruence|]. intros Hz. exfalso. rewrite Hz in Hpos.
      apply (Qlt_irrefl 0). exact Hpos.
  - assert (gap < 0)%Q as Hneg by (apply Hlt; reflexivity).
    split; [|split].
    + split; [congruence|]. intros Hpos. exfalso.
      apply (Qlt_irrefl 0). eapply Qlt_trans; eassumption.
    + tauto.
    + split; [congruence|]. intros Hz. exfalso. rewrite Hz in Hneg.
      apply (Qlt_irrefl 0). exact Hneg.
  - assert (~ (0 < gap)%Q) as Hnpos by (intros H; apply Hgt in H; discriminate).
    assert (~ (gap < 0)%Q) as Hnneg by (intros H; apply Hlt in H; discriminate).
    split; [|split].
    + split; [congruence|tauto].
    + split; [congruence|tauto].
    + split; [|reflexivity]. intros _.
      apply Qle_antisym; apply Qnot_lt_le; assumption.
Qed.

(** The gap fields of the bundle: all three present and as the
    specification has them when both prices are true, all three [None]
    otherwise; the block never raises. *)
Lemma gap_fields_cases (later earlier : option Q) :
  (exists e l,
     earlier = Some e /\ later = Some l /\ ~ (e == 0)%Q /\ ~ (l == 0)%Q /\
     exists gap gap_pct direction,
       Server.gap_fields later earlier
         = ret (Some gap, Some gap_pct, Some direction) /\
       is_gap_result e l gap gap_pct direction "up" "down" "flat") \/
  (truthy earlier && truthy later = false /\
   Server.gap_fields later earlier = ret (None, None, None)).
Proof.
  destruct earlier as [e|], later as [l|]; cbn [Server.gap_fields truthy andb];
    try (right; split; reflexivity).
  - destruct (truthy (Some e)) eqn:He; [destruct (truthy (Some l)) eqn:Hl|].
    + left. exists e, l.
      pose proof He as He'. apply truthy_Some in He'.
      pose proof Hl as Hl'. apply truthy_Some in Hl'.
      repeat (split; [first [reflexivity|assumption]|]).
      rewrite (py_div_truthy _ e He).
      cbn [truthy] in He, Hl. rewrite He, Hl. cbn [andb bind].
      eexists _, _, _. split; [reflexivity|].
      split; [reflexivity|]. split; [reflexivity|].
      apply direction_by_sign; discriminate.
    + right. cbn [truthy] in He, Hl. rewrite He, Hl. split; reflexivity.
    + right. cbn [truthy] in He. rewrite He. split; reflexivity.
  - right. rewrite andb_false_r. split; reflexivity.
Qed.

(** [format_gap] never raises; on a true base it returns the percentage
    and the direction of the gap. *)
Lemma format_gap_cases (gap base : Q) :
  exists c arrow direction gap_pct,
    Signal.format_gap gap base = ret (c, arrow, direction, (gap, gap_pct)) /\
    (~ (base == 0)%Q -> gap_pct = round2 (gap / base * 100)) /\
    ((base == 0)%Q -> gap_pct = 0%Q) /\
    (direction = "Up"%string <-> (0 < gap)%Q) /\
    (direction = "Down"%string <-> (gap < 0)%Q) /\
    (direction = "Flat"%string <-> (gap == 0)%Q).
Proof.
  unfold Signal.format_gap.
  pose proof (direction_by_sign gap "Up" "Down" "Flat"
                ltac:(discriminate) ltac:(discriminate) ltac:(discriminate)) as Hdir.
  cbn zeta in Hdir.
  destruct (truthy (Some base)) eqn:Hb.
  - rewrite (py_div_truthy gap base Hb). cbn [bind].
    apply truthy_Some in Hb.
    destruct (Qgtb gap 0); [|destruct (Qltb gap 0)];
      eexists _, _, _, _; (split; [reflexivity|]);
      (split; [reflexivity|]); (split; [tauto|]); exact Hdir.
  - cbn [bind].
    assert (base == 0)%Q as Hz.
    { destruct (Qeq_dec base 0) as [H|H]; [exact H|].
      apply truthy_Some in H. congruence. }
    destruct (Qgtb gap 0); [|destruct (Qltb gap 0)];
      eexists _, _, _, _; (split; [reflexivity|]);
      (split; [tauto|]); (split; [reflexivity|]); exact Hdir.
Qed.

(** ** The signal bundle *)

Section BundleProperties.

Context {RT : PyRuntime}.

(** The selector returns three [None], or an instrument of the table
    with its expiry and a count of days in 0..2. *)
Lemma selector_shape (w : World) (access_token : string) :
  Signal.get_nearest_expiry_instrument w access_token = (None, None, None) \/
  exists instrument expiry d,
    Signal.get_nearest_expiry_instrument w access_token
      = (Some instrument, Some expiry, Some d) /\
    (instrument = "NIFTY"%string \/ instrument = "SENSEX"%string) /\
    0 <= d <= 2.
Proof.
  unfold Signal.get_nearest_expiry_instrument.
  set (today := replace_midnight (now w)).
  destruct (first_in_window_spec 0 2 today (get_expiry_dates w access_token "NIFTY")
              ltac:(lia)) as (nifty & Hn & -> & Hnt).
  destruct (first_in_window_spec 0 1 today (get_expiry_dates w access_token "SENSEX")
              ltac:(lia)) as (sensex & Hs & -> & Hst).
  destruct nifty as [[ne nd]|], sensex as [[se sd]|]; cbn [is_first_in_window] in *.
  - destruct Hn as (? & ? & _ & _ & ? & _). destruct Hs as (? & ? & _ & _ & ? & _).
    rewrite Hnt, Hst. rewrite andb_true_r.
    destruct (nd <=? sd); right; eexists _, _, _;
      (split; [reflexivity|]); (split; [auto|lia]).
  - destruct Hn as (? & ? & _ & _ & ? & _). rewrite Hnt. cbn [str_truthy].
    right. destruct (nd <=? 999); cbn [andb]; eexists _, _, _;
      (split; [reflexivity|]); (split; [auto|lia]).
  - destruct Hs as (? & ? & _ & _ & ? & _). rewrite Hst. cbn [str_truthy].
    rewrite andb_false_r. right. eexists _, _, _.
    split; [reflexivity|]. split; [auto|lia].
  - cbn [str_truthy]. rewrite andb_false_r. left. reflexivity.
Qed.

(** What a successful run of [get_all_signal_data] returns, field by
    field. *)
Lemma get_all_signal_data_success (w : World) (b : Server.bundle) :
  Server.get_all_signal_data w = ret (Server.Signals b) ->
  exists access_token instrument expiry d info,
    load_access_token w = Some access_token /\
    Server.get_nearest_expiry_instrument w access_token
      = (Some instrument, Some expiry, Some d) /\
    0 <= d <= 2 /\
    Server.INSTRUMENTS !! instrument = Some info /\
    Server.instrument b = instrument /\
    Server.expiry_date b = Some expiry /\
    Server.dte b = Z.max 0 (d - 1) /\
    (let '(prev_day, today, _) := Server.get_trading_days_bid (now w) in
     Server.bid_ltp_330 (Server.bid b)
       = Server.get_330_ltp w access_token (Server.index_key info) prev_day /\
     Server.bid_open_915 (Server.bid b)
       = Server.get_915_open w access_token (Server.index_key info) today) /\
    Server.gap_fields (Server.bid_open_915 (Server.bid b))
                      (Server.bid_ltp_330 (Server.bid b))
      = ret (Server.bid_gap (Server.bid b), Server.bid_gap_pct (Server.bid b),
             Server.bid_direction (Server.bid b)) /\
    Server.pg_ltp_330 (Server.pricegap b)
      = Server.get_330_ltp w access_token (Server.index_key info)
          (fst (Server.get_trading_days_pricegap (now w))) /\
    Server.pg_daily_close (Server.pricegap b)
      = Server.get_daily_close w (Server.index_key info) /\
    Server.gap_fields (Server.pg_ltp_330 (Server.pricegap b))
                      (Server.pg_daily_close (Server.pricegap b))
      = ret (Server.pg_gap (Server.pricegap b),
             Server.pg_gap_pct (Server.pricegap b),
             Server.pg_direction (Server.pricegap b)) /\
    Server.coverage_instruments b
      = Server.coverage_entry w access_token "NIFTY"
        ++ Server.coverage_entry w access_token "SENSEX".
Proof.
  unfold Server.get_all_signal_data.
  destruct (load_access_token w) as [tok|]; cbn [str_truthy negb default from_option id];
    [|discriminate].
  destruct (negb (tok =? "")%string); cbn [negb]; [|discriminate].
  change (Server.get_nearest_expiry_instrument w tok)
    with (Signal.get_nearest_expiry_instrument w tok).
  destruct (selector_shape w tok) as [Hsel|(inst & expiry & d & Hsel & Hinst & Hd)];
    rewrite Hsel; cbn [str_truthy negb]; [discriminate|].
  assert (Hne : negb (inst =? "")%string = true)
    by (destruct Hinst as [->| ->]; reflexivity).
  rewrite Hne. cbn [negb default from_option id].
  assert (Hinfo : exists info, Server.INSTRUMENTS !! inst = Some info)
    by (destruct Hinst as [->| ->]; eexists; vm_compute; reflexivity).
  destruct Hinfo as [info Hinfo]. rewrite Hinfo. cbn [bind ret].
  destruct (Server.get_trading_days_bid (now w)) as [[prev_day today] opened] eqn:Hbid.
  destruct (Server.get_trading_days_pricegap (now w)) as [pg_date avail] eqn:Hpg.
  set (ltp_prev := Server.get_330_ltp w tok (Server.index_key info) prev_day).
  set (open_today := Server.get_915_open w tok (Server.index_key info) today).
  set (ltp := Server.get_330_ltp w tok (Server.index_key info) pg_date).
  set (close := Server.get_daily_close w (Server.index_key info)).
  destruct (gap_fields_cases open_today ltp_prev)
    as [(e & l & _ & _ & _ & _ & g & p & dir & Hg & _)|[_ Hg]];
  destruct (gap_fields_cases ltp close)
    as [(e' & l' & _ & _ & _ & _ & g' & p' & dir' & Hg' & _)|[_ Hg']];
  rewrite Hg; cbn [bind ret]; rewrite Hg'; cbn [bind ret];
  intros H; injection H as <-; cbn;
  exists tok, inst, expiry, d, info; repeat split; auto; try lia; exact Hsel.
Qed.

(** [get_all_signal_data] raises no exception. *)
Lemma get_all_signal_data_returns (w : World) :
  exists r, Server.get_all_signal_data w = ret r.
Proof.
  unfold Server.get_all_signal_data.
  destruct (load_access_token w) as [tok|]; cbn [str_truthy negb default from_option id];
    [|eexists; reflexivity].
  destruct (negb (tok =? "")%string); cbn [negb]; [|eexists; reflexivity].
  change (Server.get_nearest_expiry_instrument w tok)
    with (Signal.get_nearest_expiry_instrument w tok).
  destruct (selector_shape w tok) as [->|(inst & expiry & d & -> & Hinst & Hd)];
    cbn [str_truthy negb]; [eexists; reflexivity|].
  assert (Hne : negb (inst =? "")%string = true)
    by (destruct Hinst as [->| ->]; reflexivity).
  rewrite Hne. cbn [negb default from_option id].
  assert (Hinfo : exists info, Server.INSTRUMENTS !! inst = Some info)
    by (destruct Hinst as [->| ->]; eexists; vm_compute; reflexivity).
  destruct Hinfo as [info Hinfo]. rewrite Hinfo. cbn [bind ret].
  destruct (Server.get_trading_days_bid (now w)) as [[prev_day today] opened].
  destruct (Server.get_trading_days_pricegap (now w)) as [pg_date avail].
  set (ltp_prev := Server.get_330_ltp w tok (Server.index_key info) prev_day).
  set (open_today := Server.get_915_open w tok (Server.index_key info) today).
  set (ltp := Server.get_330_ltp w tok (Server.index_key info) pg_date).
  set (close := Server.get_daily_close w (Server.index_key info)).
  destruct (gap_fields_cases open_today ltp_prev)
    as [(e & l & _ & _ & _ & _ & g & p & dir & Hg & _)|[_ Hg]];
  destruct (gap_fields_cases ltp close)
    as [(e' & l' & _ & _ & _ & _ & g' & p' & dir' & Hg' & _)|[_ Hg']];
  rewrite Hg; cbn [bind ret]; rewrite Hg'; cbn [bind ret];
  eexists; reflexivity.
Qed.

End BundleProperties.

(** ** The report of signal.py *)

Section ReportProperties.

Context {RT : PyRuntime}.

(** The BID section: the gap lines when both prices are true, a notice
    otherwise; it never raises. *)
Lemma bid_section_cases (ltp_330_prev open_915_today : option Q) (is_market_open : bool) :
  (exists e l,
     ltp_330_prev = Some e /\ open_915_today = Some l /\
     ~ (e == 0)%Q /\ ~ (l == 0)%Q /\
     exists gap gap_pct c arrow direction,
       Signal.bid_section ltp_330_prev open_915_today is_market_open
         = ret (GapLines e l gap gap_pct c arrow direction) /\
       is_gap_result e l gap gap_pct direction "Up" "Down" "Flat") \/
  (truthy ltp_330_prev && truthy open_915_today = false /\
   Signal.bid_section ltp_330_prev open_915_today is_market_open
     = ret (if negb is_market_open then MarketNotOpenYet else DataNotAvailable)).
Proof.
  destruct ltp_330_prev as [e|], open_915_today as [l|];
    cbn [Signal.bid_section].
  2-4: right; split;
    [ cbn [truthy andb]; rewrite ?andb_false_r; reflexivity
    | destruct is_market_open; reflexivity ].
  destruct (truthy (Some e) && truthy (Some l)) eqn:Hboth.
  - left. apply andb_true_iff in Hboth as [He Hl].
    apply truthy_Some in He, Hl. exists e, l.
    repeat (split; [first [reflexivity|assumption]|]).
    destruct (format_gap_cases (round2 (l - e)) e)
      as (c & arrow & dir & pct & Hfmt & Hpct & _ & Hup & Hdown & Hflat).
    rewrite Hfmt. cbn [bind ret]. exists (round2 (l - e)), pct, c, arrow, dir.
    split; [reflexivity|]. split; [reflexivity|]. split; [apply Hpct; exact He|].
    auto.
  - right. split; [reflexivity|]. destruct is_market_open; reflexivity.
Qed.

(** The PriceGap section, likewise; its base is the daily close. *)
Lemma pricegap_section_cases (ltp_330 daily_close : option Q) :
  (exists e l,
     daily_close = Some e /\ ltp_330 = Some l /\
     ~ (e == 0)%Q /\ ~ (l == 0)%Q /\
     exists gap gap_pct c arrow direction,
       Signal.pricegap_section ltp_330 daily_close
         = ret (GapLines l e gap gap_pct c arrow direction) /\
       is_gap_result e l gap gap_pct direction "Up" "Down" "Flat") \/
  (truthy ltp_330 && truthy daily_close = false /\
   Signal.pricegap_section ltp_330 daily_close = ret DataNotAvailable).
Proof.
  destruct ltp_330 as [l|], daily_close as [e|];
    cbn [Signal.pricegap_section].
  2-4: right; split;
    [ cbn [truthy andb]; rewrite ?andb_false_r; reflexivity | reflexivity ].
  destruct (truthy (Some l) && truthy (Some e)) eqn:Hboth.
  - left. apply andb_true_iff in Hboth as [Hl He].
    apply truthy_Some in He, Hl. exists e, l.
    repeat (split; [first [reflexivity|assumption]|]).
    destruct (format_gap_cases (round2 (l - e)) e)
      as (c & arrow & dir & pct & Hfmt & Hpct & _ & Hup & Hdown & Hflat).
    rewrite Hfmt. cbn [bind ret]. exists (round2 (l - e)), pct, c, arrow, dir.
    split; [reflexivity|]. split; [reflexivity|]. split; [apply Hpct; exact He|].
    auto.
  - right. split; reflexivity.
Qed.

(** What a run of [main] that reaches the report prints in its header. *)
Lemma main_success (w : World) instrument expiry_date trading_day_dte bid pricegap :
  Signal.main w = ret (Signal.Report instrument expiry_date trading_day_dte bid pricegap) ->
  exists access_token expiry d info,
    load_access_token w = Some access_token /\
    Signal.get_nearest_expiry_instrument w access_token
      = (Some instrument, Some expiry, Some d) /\
    0 <= d <= 2 /\
    Signal.INSTRUMENTS !! instrument = Some info /\
    expiry_date = Some expiry /\
    trading_day_dte = Z.max 0 (d - 1) /\
    (let '(prev_day, today, is_market_open) := Signal.get_trading_days_bid (now w) in
     Signal.bid_section
       (Signal.get_330_ltp w access_token (Signal.index_key info) prev_day)
       (Signal.get_915_open w access_token (Signal.index_key info) today)
       is_market_open = ret bid) /\
    (let '(pricegap_date, _) := Signal.get_trading_days_pricegap (now w) in
     Signal.pricegap_section
       (Signal.get_330_ltp w access_token (Signal.index_key info) pricegap_date)
       (Signal.get_daily_close w access_token (Signal.index_key info) pricegap_date)
       = ret pricegap).
Proof.
  unfold Signal.main.
  destruct (load_access_token w) as [tok|];
    cbn [str_truthy negb default from_option id]; [|discriminate].
  destruct (negb (tok =? "")%string); cbn [negb]; [|discriminate].
  destruct (selector_shape w tok) as [Hsel|(inst & expiry & d & Hsel & Hinst & Hd)];
    rewrite Hsel; cbn [str_truthy negb]; [discriminate|].
  assert (Hne : negb (inst =? "")%string = true)
    by (destruct Hinst as [->| ->]; reflexivity).
  rewrite Hne. cbn [negb default from_option id].
  assert (Hinfo : exists info, Signal.INSTRUMENTS !! inst = Some info)
    by (destruct Hinst as [->| ->]; eexists; vm_compute; reflexivity).
  destruct Hinfo as [info Hinfo]. rewrite Hinfo. cbn [bind ret].
  destruct (Signal.get_trading_days_bid (now w)) as [[prev_day today] opened].
  destruct (Signal.get_trading_days_pricegap (now w)) as [pg_date avail].
  cbn [bind ret].
  destruct (Signal.bid_section _ _ _) as [e|bs] eqn:Hbs; cbn [bind]; [discriminate|].
  destruct (Signal.pricegap_section _ _) as [e|ps] eqn:Hps; cbn [bind]; [discriminate|].
  intros H. injection H as <- <- <- <- <-.
  exists tok, expiry, d, info. repeat split; auto; lia.
Qed.

(** [main] raises no exception. *)
Lemma main_returns (w : World) : exists r, Signal.main w = ret r.
Proof.
  unfold Signal.main.
  destruct (load_access_token w) as [tok|];
    cbn [str_truthy negb default from_option id]; [|eexists; reflexivity].
  destruct (negb (tok =? "")%string); cbn [negb]; [|eexists; reflexivity].
  destruct (selector_shape w tok) as [Hsel|(inst & expiry & d & Hsel & Hinst & Hd)];
    rewrite Hsel; cbn [str_truthy negb]; [eexists; reflexivity|].
  assert (Hne : negb (inst =? "")%string = true)
    by (destruct Hinst as [->| ->]; reflexivity).
  rewrite Hne. cbn [negb default from_option id].
  assert (Hinfo : exists info, Signal.INSTRUMENTS !! inst = Some info)
    by (destruct Hinst as [->| ->]; eexists; vm_compute; reflexivity).
  destruct Hinfo as [info Hinfo]. rewrite Hinfo. cbn [bind ret].
  destruct (Signal.get_trading_days_bid (now w)) as [[prev_day today] opened].
  destruct (Signal.get_trading_days_pricegap (now w)) as [pg_date avail].
  cbn [bind ret].
  match goal with
  | |- context [Signal.bid_section ?a ?b ?c] =>
      destruct (bid_section_cases a b c)
        as [(? & ? & _ & _ & _ & _ & ? & ? & ? & ? & ? & -> & _)|[_ ->]]
  end;
  match goal with
  | |- context [Signal.pricegap_section ?a ?b] =>
      destruct (pricegap_section_cases a b)
        as [(? & ? & _ & _ & _ & _ & ? & ? & ? & ? & ? & -> & _)|[_ ->]]
  end;
  cbn [bind ret]; eexists; reflexivity.
Qed.

End ReportProperties.



(** C6. A base price of zero makes the signal unavailable: the bundle of
    server.py leaves gap, gap_pct and direction [None], the reports of
    signal.py and bid.py show a notice instead of gap lines, a percentage
    appears in the bundle only with a base other than zero, and neither
    server.py nor signal.py raises an exception, a division by zero
    included. *)
Theorem zero_base_is_unavailable {RT : PyRuntime} (w : World) :
  (exists r, Server.get_all_signal_data w = ret r) /\
  (exists r, Signal.main w = ret r) /\
  (forall b, Server.get_all_signal_data w = ret (Server.Signals b) ->
     (forall e, Server.bid_ltp_330 (Server.bid b) = Some e -> (e == 0)%Q ->
        Server.bid_gap (Server.bid b) = None /\
        Server.bid_gap_pct (Server.bid b) = None /\
        Server.bid_direction (Server.bid b) = None) /\
     (forall e, Server.pg_daily_close (Server.pricegap b) = Some e -> (e == 0)%Q ->
        Server.pg_gap (Server.pricegap b) = None /\
        Server.pg_gap_pct (Server.pricegap b) = None /\
        Server.pg_direction (Server.pricegap b) = None) /\
     (forall p, Server.bid_gap_pct (Server.bid b) = Some p ->
        exists e, Server.bid_ltp_330 (Server.bid b) = Some e /\ ~ (e == 0)%Q) /\
     (forall p, Server.pg_gap_pct (Server.pricegap b) = Some p ->
        exists e, Server.pg_daily_close (Server.pricegap b) = Some e /\ ~ (e == 0)%Q)) /\
  (forall e later is_market_open, (e == 0)%Q ->
     Signal.bid_section (Some e) later is_market_open
       = ret (if negb is_market_open then MarketNotOpenYet else DataNotAvailable) /\
     Signal.pricegap_section later (Some e) = ret DataNotAvailable) /\
  (forall gap base, (base == 0)%Q ->
     exists c arrow direction,
       Signal.format_gap gap base = ret (c, arrow, direction, (gap, 0%Q))) /\
  (forall e open_915, (e == 0)%Q ->
     Bid.main_row (Some e) open_915 = ret DataNotAvailable).
Proof.
  split; [apply get_all_signal_data_returns|].
  split; [apply main_returns|].
  split; [|split; [|split]].
  - intros b Hrun.
    destruct (get_all_signal_data_success w b Hrun)
      as (tok & inst & expiry & d & info & _ & _ & _ & _ & _ & _ & _ & _
          & Hbid & _ & _ & Hpg & _).
    assert (Hzero : forall later earlier e g p dir,
      Server.gap_fields later earlier = ret (g, p, dir) ->
      earlier = Some e -> (e == 0)%Q -> g = None /\ p = None /\ dir = None).
    { intros later earlier e g p dir Hf -> He.
      destruct (gap_fields_cases later (Some e))
        as [(e0 & l0 & He0 & _ & Hne & _)|[_ Hf']].
      - injection He0 as <-. contradiction.
      - rewrite Hf' in Hf. injection Hf as <- <- <-. auto. }
    assert (Hpct : forall later earlier g p dir q,
      Server.gap_fields later earlier = ret (g, p, dir) ->
      p = Some q -> exists e, earlier = Some e /\ ~ (e == 0)%Q).
    { intros later earlier g p dir q Hf ->.
      destruct (gap_fields_cases later earlier)
        as [(e0 & l0 & He0 & _ & Hne & _)|[_ Hf']].
      - exists e0. auto.
      - rewrite Hf' in Hf. discriminate. }
    split; [|split; [|split]].
    + intros e He Hz. eapply Hzero; eassumption.
    + intros e He Hz. eapply Hzero; eassumption.
    + intros p Hp. eapply Hpct; eassumption.
    + intros p Hp. eapply Hpct; eassumption.
  - intros e later mo Hz. split.
    + destruct (bid_section_cases (Some e) later mo)
        as [(e0 & l0 & He0 & _ & Hne & _)|[_ H]]; [|exact H].
      injection He0 as <-. contradiction.
    + destruct (pricegap_section_cases later (Some e))
        as [(e0 & l0 & He0 & _ & Hne & _)|[_ H]]; [|exact H].
      injection He0 as <-. contradiction.
  - intros gap base Hz.
    destruct (format_gap_cases gap base) as (c & arrow & dir & pct & H & _ & Hp & _).
    exists c, arrow, dir. rewrite H, (Hp Hz). reflexivity.
  - intros e open_915 Hz. unfold Bid.main_row.
    rewrite (truthy_zero e Hz). destruct open_915; reflexivity.
Qed.

(** ** The coverage premium *)

(** The table of the code is the table of the specification. *)
Lemma premium_pct_lookup (dte : Z) :
  default 0.54%Q (Server.PREMIUM_PCT !! dte) = premium_pct dte.
Proof.
  unfold premium_pct.
  destruct (Z.eqb_spec dte 0) as [->|H0]; [reflexivity|].
  destruct (Z.eqb_spec dte 1) as [->|H1]; [reflexivity|].
  destruct (Z.eqb_spec dte 2) as [->|H2]; [reflexivity|].
  destruct (Z.eqb_spec dte 3) as [->|H3]; [reflexivity|].
  destruct (Z.eqb_spec dte 4) as [->|H4]; [reflexivity|].
  unfold Server.PREMIUM_PCT.
  rewrite !lookup_insert_ne by congruence. rewrite lookup_empty. reflexivity.
Qed.

Section CoverageProperties.

Context {RT : PyRuntime}.

(** The entry the coverage loop appends for one instrument. *)
Lemma coverage_entry_spec (w : World) (access_token inst : string) item :
  In item (Server.coverage_entry w access_token inst) ->
  Server.cov_name item = inst /\
  (exists expiry day,
     Server.get_dte_for_instrument_tomorrow w access_token inst
       = Some (Server.cov_dte item, expiry, day)) /\
  Server.get_spot_price w inst = Some (Server.cov_spot item) /\
  Server.cov_pct item = premium_pct (Server.cov_dte item) /\
  Server.cov_premium item
    = round2 (Server.cov_spot item * Server.cov_pct item / 100).
Proof.
  unfold Server.coverage_entry.
  destruct (Server.get_dte_for_instrument_tomorrow w access_token inst)
    as [[[dte expiry] day]|]; [|intros []].
  destruct (Server.get_spot_price w inst) as [sp|]; [|intros []].
  destruct (truthy (Some sp)); [|intros []].
  intros [<-|[]]. cbn. rewrite premium_pct_lookup.
  repeat split; eauto.
Qed.


End CoverageProperties.



(** C10. The [dte] field of the bundle of server.py and the count of days
    in the header of the report of signal.py are max(0, d - 1), where d
    is the count of days the expiry selector returned: d - 1 for d of 1
    or 2, and 0 for d = 0. *)
Theorem shown_dte_is_selector_dte_less_one {RT : PyRuntime} (w : World) :
  (forall b, Server.get_all_signal_data w = ret (Server.Signals b) ->
     exists access_token expiry d,
       load_access_token w = Some access_token /\
       Server.get_nearest_expiry_instrument w access_token
         = (Some (Server.instrument b), Some expiry, Some d) /\
       Server.expiry_date b = Some expiry /\
       Server.dte b = Z.max 0 (d - 1) /\
       0 <= d <= 2 /\
       (1 <= d -> Server.dte b = d - 1) /\
       (d = 0 -> Server.dte b = 0)) /\
  (forall instrument expiry_date trading_day_dte bid pricegap,
     Signal.main w
       = ret (Signal.Report instrument expiry_date trading_day_dte bid pricegap) ->
     exists access_token expiry d,
       load_access_token w = Some access_token /\
       Signal.get_nearest_expiry_instrument w access_token
         = (Some instrument, Some expiry, Some d) /\
       expiry_date = Some expiry /\
       trading_day_dte = Z.max 0 (d - 1) /\
       0 <= d <= 2 /\
       (1 <= d -> trading_day_dte = d - 1) /\
       (d = 0 -> trading_day_dte = 0)).
Proof.
  split.
  - intros b Hrun.
    destruct (get_all_signal_data_success w b Hrun)
      as (tok & inst & expiry & d & info & Htok & Hsel & Hd & _ & Hinst & Hexp
          & Hdte & _).
    exists tok, expiry, d. rewrite Hinst.
    repeat split; try assumption; lia.
  - intros inst exp tdte bid pg Hrun.
    destruct (main_success w inst exp tdte bid pg Hrun)
      as (tok & expiry & d & info & Htok & Hsel & Hd & _ & Hexp & Hdte & _).
    exists tok, expiry, d. repeat split; try assumption; lia.
Qed.

(** The sample world: the selector counts one day to the NIFTY expiry and
    both programs show zero. *)
Example shown_dte_sample :
  @Signal.get_nearest_expiry_instrument sample_runtime sample_world "token"
    = (Some "NIFTY", Some "2025-01-09", Some 1)%string /\
  (exists b,
     @Server.get_all_signal_data sample_runtime sample_world
       = ret (Server.Signals b) /\ Server.dte b = 0) /\
  (exists bid pricegap,
     @Signal.main sample_runtime sample_world
       = ret (Signal.Report "NIFTY" (Some "2025-01-09"%string) 0 bid pricegap)).
Proof.
  split; [vm_compute; reflexivity|]. split.
  - eexists. split; vm_compute; reflexivity.
  - eexists _, _. vm_compute. reflexivity.
Qed.

(** * Further properties of the code *)

(** ** Trading days *)

(** The test of bid.py on [hour] and [minute] is the comparison of the
    clock time with 09:15, from the other side. *)
Lemma before_open_test (now : datetime) :
  valid_datetime now ->
  ((hour now <? 9) || ((hour now =? 9) && (minute now <? 15)) = true
   <-> time_of_day now < clock 9 15).
Proof.
  unfold valid_datetime, clock, time_of_day.
  intros (_ & Hh & Hm & Hs & Hu).
  rewrite orb_true_iff, andb_true_iff, !Z.ltb_lt, Z.eqb_eq.
  split.
  - intros [Hlt | [-> Hlt]]; nia.
  - intros Hlt. destruct (Z.lt_trichotomy (hour now) 9) as [?|[?|?]].
    + left. assumption.
    + right. split; [assumption|]. nia.
    + exfalso. nia.
Qed.

(** [get_trading_days] of bid.py: today is the date of [now], or the day
    before when the clock is before 09:15, rolled backward past the
    weekend; prev_day is the day before today, rolled likewise. *)
Theorem bid_py_trading_days (now : datetime) :
  valid_datetime now ->
  let '(prev_day, today) := Bid.get_trading_days now in
  (time_of_day now < clock 9 15 -> rolled_from (date now - 1) today) /\
  (clock 9 15 <= time_of_day now -> rolled_from (date now) today) /\
  rolled_from (today - 1) prev_day /\
  date now - 4 <= prev_day.
Proof.
  intros Hv. pose proof (before_open_test now Hv) as Hclock.
  unfold_resolvers. set (before := (hour now <? 9) || _) in *.
  split; [|split; [|split]].
  - intros Hlt. apply Hclock in Hlt. rewrite Hlt. cbv iota.
    rewrite skip_weekends_ordinal, ordinal_minus_days. apply rolled_from_closed.
  - intros Hge. assert (before = false) as ->.
    { apply not_true_is_false. intros E. apply Hclock in E. lia. }
    cbv iota. rewrite skip_weekends_ordinal. apply rolled_from_closed.
  - autorewrite with dates. apply rolled_from_closed.
  - destruct before; autorewrite with dates; week_arith.
Qed.

Lemma bid_py_trading_days_witness :
  valid_datetime monday_0800 /\
  rolled_from (date monday_0800 - 1) (snd (Bid.get_trading_days monday_0800)).
Proof.
  assert (Hv : valid_datetime monday_0800) by (vm_compute; intuition discriminate).
  split; [exact Hv|].
  pose proof (bid_py_trading_days monday_0800 Hv) as H.
  destruct (Bid.get_trading_days monday_0800) as [prev_day today].
  destruct H as (H & _). apply H. vm_compute. reflexivity.
Defined.

(** On a Saturday or a Sunday the BID resolver of signal.py reports the
    market closed and resolves to the Wednesday and the Thursday before,
    at any clock time; the PriceGap resolver resolves to the Friday
    before; bid.py resolves to that Thursday and Friday. *)
Theorem weekend_resolution (now : datetime) :
  5 <= weekday now ->
  let friday := date now - (weekday now - 4) in
  weekday_of friday = 4 /\
  Signal.get_trading_days_bid now = (friday - 2, friday - 1, false) /\
  Signal.get_trading_days_pricegap now = (friday, false) /\
  Bid.get_trading_days now = (friday - 1, friday).
Proof.
  intros Hwd. cbn zeta. unfold weekday in *.
  pose proof (weekday_of_range (ordinal now)) as Hr.
  assert (Hroll : ordinal (skip_weekends (replace_midnight now))
                  = ordinal now - (weekday_of (ordinal now) - 4)).
  { autorewrite with dates. lia. }
  assert (Hne : (ordinal now =? ordinal (skip_weekends (replace_midnight now))) = false).
  { apply Z.eqb_neq. rewrite Hroll. lia. }
  split; [unfold date; week_arith|].
  split; [|split].
  - unfold_resolvers. rewrite Hne. cbn [andb negb].
    f_equal. f_equal; autorewrite with dates; week_arith.
  - unfold_resolvers. rewrite Hne. cbn [andb negb].
    f_equal. autorewrite with dates. week_arith.
  - unfold_resolvers.
    destruct ((hour now <? 9) || _); f_equal; autorewrite with dates; week_arith.
Qed.

Lemma weekend_resolution_witness :
  5 <= weekday saturday_1000 /\
  Signal.get_trading_days_bid saturday_1000 = (739252, 739253, false) /\
  Signal.get_trading_days_pricegap saturday_1000 = (739254, false).
Proof.
  assert (Hwd : 5 <= weekday saturday_1000) by (vm_compute; discriminate).
  split; [exact Hwd|].
  destruct (weekend_resolution saturday_1000 Hwd) as (_ & Hbid & Hpg & _).
  split; [exact Hbid|exact Hpg].
Defined.

(** Closed form of the forward loop: a Saturday gains two days, a Sunday
    one, any other day none. *)
Lemma skip_weekends_forward_spec (d : datetime) :
  skip_weekends_forward d
  = plus_days d (if 5 <=? weekday d then 7 - weekday d else 0).
Proof.
  funelim (skip_weekends_forward d).
  - rewrite H. clear H Heqcall. destruct d as [o h m s u].
    unfold weekday, plus_days in *.
    cbn [ordinal hour minute second microsecond] in *.
    f_equal.
    destruct (Z.leb_spec 5 (weekday_of (o + 1)));
      destruct (Z.leb_spec 5 (weekday_of o)); week_arith.
  - destruct d as [o h m s u]. unfold plus_days, weekday in *.
    cbn [ordinal hour minute second microsecond] in *.
    destruct (Z.leb_spec 5 (weekday_of o)); [lia|]. f_equal. lia.
Qed.

(** [get_next_trading_day]: midnight of the first Monday-to-Friday date
    strictly after the date of [now], at most three days ahead. *)
Theorem next_trading_day_is_next_weekday (now : datetime) :
  let next_day := Signal.get_next_trading_day now in
  Server.get_next_trading_day now = next_day /\
  time_of_day next_day = 0 /\
  0 <= weekday next_day < 5 /\
  date now < date next_day <= date now + 3 /\
  forall x, date now < x < date next_day -> 5 <= weekday_of x.
Proof.
  cbn zeta. split; [reflexivity|].
  unfold Signal.get_next_trading_day. rewrite skip_weekends_forward_spec.
  unfold plus_days, replace_midnight, weekday, date, time_of_day.
  cbn [ordinal hour minute second microsecond].
  split; [reflexivity|].
  destruct (Z.leb_spec 5 (weekday_of (ordinal now + 1)));
    (split; [|split]); try (intros x Hx); week_arith.
Qed.


(** ** Candle scans *)

Section ScanFurther.

Context {RT : PyRuntime}.

(** After a candle that no later one exceeds, the loop keeps it. *)
Lemma scan_330_fold_keep (after : list candle) (c : candle) (t : Z * Z) :
  (forall c' t', In c' after -> qualifies c' t' -> time_le t' t) ->
  fold_left scan_330_step after (Some c, Some t) = (Some c, Some t).
Proof.
  induction after as [|c' rest IH]; intros Hmax; [reflexivity|].
  cbn [fold_left].
  assert (Hstep : scan_330_step (Some c, Some t) c' = (Some c, Some t)).
  { destruct (qualifies_dec c') as [[t' Hq]|Hnq].
    - rewrite (scan_330_step_qualifying _ _ c' t' Hq).
      destruct (tuple_gt t' t) eqn:Hgt; [|reflexivity].
      apply tuple_gt_spec in Hgt. exfalso. apply Hgt.
      apply (Hmax c' t'); [left; reflexivity|exact Hq].
    - apply scan_330_step_skip. exact Hnq. }
  rewrite Hstep. apply IH. intros c'' t'' Hin. apply Hmax. right. exact Hin.
Qed.

(** Which candle the 3:30 PM scan returns: the first of the feed among
    those stamped latest, not after 15:29. *)
Theorem scan_330_takes_first_of_latest (before after : list candle)
    (c : candle) (t : Z * Z) :
  qualifies c t ->
  (forall c' t', In c' before -> qualifies c' t' -> ~ time_le t t') ->
  (forall c' t', In c' after -> qualifies c' t' -> time_le t' t) ->
  scan_330 (before ++ c :: after) = Some (c_close c).
Proof.
  intros Hq Hbefore Hafter. unfold scan_330.
  rewrite fold_left_app. cbn [fold_left].
  pose proof (scan_330_fold_inv before [] (None, None)
                ltac:(cbn; intros ? ? [])) as Hinv.
  cbn [app] in Hinv.
  destruct (fold_left scan_330_step before (None, None)) as [bc bt].
  rewrite (scan_330_step_qualifying bc bt c t Hq).
  assert (Htake : match bt with None => true | Some b => tuple_gt t b end = true).
  { destruct bc as [b|], bt as [tb|]; cbn in Hinv; try contradiction;
      [|reflexivity].
    destruct Hinv as (Hin & Hqb & _). apply tuple_gt_spec.
    apply (Hbefore b tb Hin Hqb). }
  rewrite Htake, (scan_330_fold_keep after c t Hafter). reflexivity.
Qed.

(** The result of the 3:30 PM scan does not depend on the order of the
    feed, as long as candles stamped alike close alike. *)
Theorem scan_330_order_independent (candles candles' : list candle) :
  Permutation candles candles' ->
  (forall c c' t, In c candles -> In c' candles ->
                  qualifies c t -> qualifies c' t -> c_close c = c_close c') ->
  scan_330 candles = scan_330 candles'.
Proof.
  intros Hperm Hsame.
  destruct (scan_330_correct candles)
    as [[-> Hnone]|(c & t & Hin & Hq & -> & Hmax)];
  destruct (scan_330_correct candles')
    as [[-> Hnone']|(c' & t' & Hin' & Hq' & -> & Hmax')].
  - reflexivity.
  - exfalso. apply (Hnone c' t'); [|exact Hq'].
    apply (Permutation_in _ (Permutation_sym Hperm)). exact Hin'.
  - exfalso. apply (Hnone' c t); [|exact Hq].
    apply (Permutation_in _ Hperm). exact Hin.
  - f_equal.
    assert (Hin1 : In c' candles)
      by (apply (Permutation_in _ (Permutation_sym Hperm)); exact Hin').
    assert (Hin2 : In c candles') by (apply (Permutation_in _ Hperm); exact Hin).
    pose proof (Hmax c' t' Hin1 Hq') as H1.
    pose proof (Hmax' c t Hin2 Hq) as H2.
    assert (t = t') as <-.
    { destruct t as [h m], t' as [h' m']. unfold time_le in *.
      cbn [fst snd] in *. f_equal; lia. }
    apply (Hsame c c' t); assumption.
Qed.

(** The 9:15 scan: the open of the first candle of the feed stamped
    09:15, and nothing when no candle is stamped 09:15; candles stamped
    otherwise, or whose timestamp does not parse, are passed over. *)
Theorem scan_915_takes_first_match (candles : list candle) :
  (scan_915 candles = None /\
   forall c, In c candles -> candle_time c <> Some (9, 15)) \/
  (exists before c after,
     candles = before ++ c :: after /\
     candle_time c = Some (9, 15) /\
     (forall c', In c' before -> candle_time c' <> Some (9, 15)) /\
     scan_915 candles = Some (c_open c)).
Proof.
  induction candles as [|c rest IH].
  - left. split; [reflexivity|]. intros c [].
  - cbn [scan_915]. unfold candle_time in *.
    destruct (candle_datetime c) as [dt|] eqn:Hdt.
    + destruct ((hour dt =? 9) && (minute dt =? 15)) eqn:Hm.
      * right. exists [], c, rest. apply andb_true_iff in Hm as [H1 H2].
        apply Z.eqb_eq in H1, H2. rewrite Hdt, H1, H2.
        repeat split. intros c' [].
      * assert (Hc : Some (hour dt, minute dt) <> Some (9, 15)).
        { intros E. injection E as E1 E2. rewrite E1, E2 in Hm. discriminate. }
        destruct IH as [[Hn Hall]|(before & c0 & after & -> & Hc0 & Hb & Hs)].
        -- left. split; [exact Hn|]. intros c' [<-|Hin].
           ++ rewrite Hdt. exact Hc.
           ++ apply Hall. exact Hin.
        -- right. exists (c :: before), c0, after.
           split; [reflexivity|]. split; [exact Hc0|]. split; [|exact Hs].
           intros c' [<-|Hin]; [rewrite Hdt; exact Hc|apply Hb; exact Hin].
    + destruct IH as [[Hn Hall]|(before & c0 & after & -> & Hc0 & Hb & Hs)].
      * left. split; [exact Hn|]. intros c' [<-|Hin].
        -- rewrite Hdt. discriminate.
        -- apply Hall. exact Hin.
      * right. exists (c :: before), c0, after.
        split; [reflexivity|]. split; [exact Hc0|]. split; [|exact Hs].
        intros c' [<-|Hin]; [rewrite Hdt; discriminate|apply Hb; exact Hin].
Qed.

End ScanFurther.

Ltac sample_candle_time H :=
  let Ht := fresh "Ht" in
  destruct H as [Ht ?]; vm_compute in Ht; injection Ht as <-.

Lemma scan_330_takes_first_of_latest_witness :
  @scan_330 sample_runtime
    ([candle_1525] ++ candle_1529 :: [candle_1529_again; candle_1531])
  = Some 24004.7%Q.
Proof.
  apply (@scan_330_takes_first_of_latest sample_runtime [candle_1525]
           [candle_1529_again; candle_1531] candle_1529 (15, 29)).
  - split; [vm_compute; reflexivity|]. right. cbn [fst snd]. lia.
  - intros c' t' [<-|[]] Hq. sample_candle_time Hq.
    unfold time_le. cbn [fst snd]. lia.
  - intros c' t' [<-|[<-|[]]] Hq; sample_candle_time Hq;
      unfold time_le, before_1530 in *; cbn [fst snd] in *; lia.
Defined.

Lemma scan_330_order_independent_witness :
  @scan_330 sample_runtime [candle_1525; candle_1529; candle_1531]
  = @scan_330 sample_runtime [candle_1531; candle_1529; candle_1525].
Proof.
  apply (@scan_330_order_independent sample_runtime).
  - apply perm_trans with (l' := [candle_1529; candle_1525; candle_1531]).
    + apply perm_swap.
    + apply perm_trans with (l' := [candle_1529; candle_1531; candle_1525]).
      * apply perm_skip. apply perm_swap.
      * apply perm_swap.
  - intros c c' t [<-|[<-|[<-|[]]]] [<-|[<-|[<-|[]]]] Hq Hq';
      try reflexivity; exfalso;
      destruct Hq as [Ht _], Hq' as [Ht' _];
      vm_compute in Ht, Ht'; rewrite <- Ht in Ht'; discriminate Ht'.
Defined.

(** ** Days to expiry *)

Section ExpiryFurther.

Context {RT : PyRuntime}.

(** [calculate_dte]: 999 for a text that is no date, and otherwise the
    difference of the two calendar dates when both datetimes show the
    same clock time, as the midnights of the selector do. *)
Theorem calculate_dte_is_date_difference (expiry_date : string)
    (today expiry : datetime) :
  strptime expiry_date = Some expiry ->
  time_of_day expiry = time_of_day today ->
  Signal.calculate_dte expiry_date today = date expiry - date today /\
  Server.calculate_dte expiry_date today = date expiry - date today /\
  (forall text day, strptime text = None ->
     Signal.calculate_dte text day = 999 /\ Server.calculate_dte text day = 999).
Proof.
  intros Hparse Htime.
  assert (H : Signal.calculate_dte expiry_date today = date expiry - date today).
  { unfold Signal.calculate_dte, timedelta_days, date. rewrite Hparse, Htime.
    rewrite Z.sub_diag, Z.add_0_r. apply Z.div_mul. discriminate. }
  split; [exact H|]. split; [exact H|].
  intros text day Hnone. unfold Signal.calculate_dte, Server.calculate_dte.
  rewrite Hnone. split; reflexivity.
Qed.

(** The selector as the choice between the first in-window expiries. *)
Lemma selector_is_nearest_of (w : World) (access_token : string) :
  let today := replace_midnight (now w) in
  exists nifty sensex,
    is_first_in_window (fun e => Signal.calculate_dte e today) 0 2
      (get_expiry_dates w access_token "NIFTY") nifty /\
    is_first_in_window (fun e => Signal.calculate_dte e today) 0 1
      (get_expiry_dates w access_token "SENSEX") sensex /\
    Signal.get_nearest_expiry_instrument w access_token = nearest_of nifty sensex.
Proof.
  intros today.
  destruct (first_in_window_spec 0 2 today (get_expiry_dates w access_token "NIFTY")
              ltac:(lia)) as (nifty & Hn & Hneq & Hnt).
  destruct (first_in_window_spec 0 1 today (get_expiry_dates w access_token "SENSEX")
              ltac:(lia)) as (sensex & Hs & Hseq & Hst).
  exists nifty, sensex. split; [exact Hn|]. split; [exact Hs|].
  unfold Signal.get_nearest_expiry_instrument. fold today. rewrite Hneq, Hseq.
  destruct nifty as [[ne nd]|], sensex as [[se sd]|]; cbn [nearest_of].
  - rewrite Hnt, Hst. rewrite andb_true_r. destruct (nd <=? sd); reflexivity.
  - rewrite Hnt. cbn [str_truthy]. rewrite andb_true_r.
    destruct Hn as (b & a & _ & _ & Hw & _).
    destruct (Z.leb_spec nd 999); [reflexivity|lia].
  - rewrite Hst. cbn [str_truthy]. rewrite andb_false_r. reflexivity.
  - cbn [str_truthy]. rewrite andb_false_r. reflexivity.
Qed.

(** In a list whose days to expiry ascend, the first expiry in the window
    is the nearest one that is not past. *)
Lemma first_in_window_nearest (dte_of : string -> Z) (lo hi : Z)
    (expiries : list string) (exp : string) (dte : Z) :
  is_first_in_window dte_of lo hi expiries (Some (exp, dte)) ->
  StronglySorted Z.le (map dte_of expiries) ->
  forall e, In e expiries -> lo <= dte_of e -> dte <= dte_of e.
Proof.
  intros (before & after & -> & -> & Hw & Hbefore) Hsorted e Hin Hlo.
  rewrite map_app in Hsorted. cbn [map] in Hsorted.
  apply in_app_or in Hin as [Hin|[<-|Hin]].
  - exfalso. apply (Hbefore e Hin). split; [exact Hlo|].
    assert (dte_of e <= dte_of exp); [|lia].
    clear - Hsorted Hin. induction before as [|b rest IH]; [destruct Hin|].
    cbn [map app] in Hsorted. apply StronglySorted_inv in Hsorted as [Hs Hall].
    destruct Hin as [<-|Hin]; [|apply IH; assumption].
    rewrite List.Forall_forall in Hall. apply Hall.
    apply in_or_app. right. left. reflexivity.
  - lia.
  - clear - Hsorted Hin. induction before as [|b rest IH].
    + cbn [app] in Hsorted. apply StronglySorted_inv in Hsorted as [_ Hall].
      rewrite List.Forall_forall in Hall. apply Hall. apply in_map. exact Hin.
    + cbn [map app] in Hsorted. apply StronglySorted_inv in Hsorted as [Hs _].
      apply IH. exact Hs.
Qed.

(** What the selector returns, when it returns an instrument: one of its
    expiries, which parses as a date, with its days to expiry, in 0..2
    for NIFTY and 0..1 for SENSEX; and when that instrument's list
    ascends in days to expiry, no expiry of it that is not past is
    nearer. *)
Theorem selected_expiry_is_nearest (w : World) (access_token : string)
    (instrument expiry : string) (d : Z) :
  Signal.get_nearest_expiry_instrument w access_token
    = (Some instrument, Some expiry, Some d) ->
  let today := replace_midnight (now w) in
  let expiries := get_expiry_dates w access_token instrument in
  In expiry expiries /\
  (exists parsed, strptime expiry = Some parsed) /\
  d = Signal.calculate_dte expiry today /\
  ((instrument = "NIFTY"%string /\ 0 <= d <= 2) \/
   (instrument = "SENSEX"%string /\ 0 <= d <= 1)) /\
  (StronglySorted Z.le (map (fun e => Signal.calculate_dte e today) expiries) ->
   forall e, In e expiries -> 0 <= Signal.calculate_dte e today ->
             d <= Signal.calculate_dte e today).
Proof.
  intros Hsel today.
  destruct (selector_is_nearest_of w access_token) as (nifty & sensex & Hn & Hs & Heq).
  fold today in Hn, Hs. rewrite Hsel in Heq.
  assert (Hcase : forall lo hi l,
    hi < 999 ->
    is_first_in_window (fun e => Signal.calculate_dte e today) lo hi l
      (Some (expiry, d)) ->
    In expiry l /\ (exists parsed, strptime expiry = Some parsed) /\
    d = Signal.calculate_dte expiry today /\ lo <= d <= hi).
  { intros lo hi l Hhi (before & after & -> & Hd & Hw & _).
    split; [apply in_or_app; right; left; reflexivity|].
    split; [|split; assumption].
    unfold Signal.calculate_dte in Hd.
    destruct (strptime expiry) as [parsed|]; [eexists; reflexivity|lia]. }
  assert (Hpick :
    (instrument = "NIFTY"%string /\ nifty = Some (expiry, d)) \/
    (instrument = "SENSEX"%string /\ sensex = Some (expiry, d))).
  { destruct nifty as [[ne nd]|], sensex as [[se sd]|]; cbn [nearest_of] in Heq;
      try destruct (nd <=? sd); try discriminate Heq;
      injection Heq as E1 E2 E3; subst; auto. }
  cbv zeta. destruct Hpick as [[E ->]|[E ->]]; rewrite E.
  - destruct (Hcase 0 2 _ ltac:(lia) Hn) as (Hin & Hp & Hd & Hw).
    repeat split; try assumption; [left; auto|].
    intros Hsorted e. apply (first_in_window_nearest _ 0 2 _ _ _ Hn Hsorted).
  - destruct (Hcase 0 1 _ ltac:(lia) Hs) as (Hin & Hp & Hd & Hw).
    repeat split; try assumption; [right; auto|].
    intros Hsorted e. apply (first_in_window_nearest _ 0 1 _ _ _ Hs Hsorted).
Qed.

(** The loop of the coverage lookup, read as a list search. *)
Lemma first_not_before_spec (day : datetime) (expiries : list string) :
  match Server.first_not_before day expiries with
  | Some (dte, exp, text) =>
      text = strftime day /\ dte = Server.calculate_dte exp day /\ 0 <= dte /\
      exists before after,
        expiries = before ++ exp :: after /\
        forall e, In e before -> Server.calculate_dte e day < 0
  | None => forall e, In e expiries -> Server.calculate_dte e day < 0
  end.
Proof.
  induction expiries as [|e rest IH]; cbn [Server.first_not_before].
  - intros e [].
  - destruct (Z.leb_spec 0 (Server.calculate_dte e day)) as [Hge|Hlt].
    + repeat split; [exact Hge|]. exists [], rest. split; [reflexivity|].
      intros e' [].
    + destruct (Server.first_not_before day rest) as [[[dte exp] text]|].
      * destruct IH as (Ht & Hd & Hge & before & after & -> & Hb).
        repeat split; try assumption. exists (e :: before), after.
        split; [reflexivity|]. intros e' [<-|Hin]; [exact Hlt|apply Hb; exact Hin].
      * intros e' [<-|Hin]; [exact Hlt|apply IH; exact Hin].
Qed.

(** [get_dte_for_instrument_tomorrow]: the first expiry of the list that
    does not lie before the next trading day, with its days to expiry
    from that day, which are never negative; nothing when every expiry
    lies before it.  A text that is no date counts as 999 days away, so
    it is taken when it comes first. *)
Theorem dte_for_tomorrow_is_first_upcoming (w : World)
    (access_token instrument : string) :
  let day := Server.get_next_trading_day (now w) in
  let expiries := get_expiry_dates w access_token instrument in
  Signal.get_dte_for_instrument_tomorrow w access_token instrument
    = Server.get_dte_for_instrument_tomorrow w access_token instrument /\
  match Server.get_dte_for_instrument_tomorrow w access_token instrument with
  | Some (dte, exp, text) =>
      text = strftime day /\ dte = Server.calculate_dte exp day /\ 0 <= dte /\
      exists before after,
        expiries = before ++ exp :: after /\
        forall e, In e before ->
          Server.calculate_dte e day < 0 /\ exists parsed, strptime e = Some parsed
  | None =>
      forall e, In e expiries ->
        Server.calculate_dte e day < 0 /\ exists parsed, strptime e = Some parsed
  end /\
  (forall text rest, expiries = text :: rest -> strptime text = None ->
     Server.get_dte_for_instrument_tomorrow w access_token instrument
       = Some (999, text, strftime day)).
Proof.
  intros day expiries. split; [reflexivity|].
  assert (Hparsed : forall e, Server.calculate_dte e day < 0 ->
                              exists parsed, strptime e = Some parsed).
  { intros e H. unfold Server.calculate_dte in H.
    destruct (strptime e) as [parsed|]; [eexists; reflexivity|lia]. }
  unfold Server.get_dte_for_instrument_tomorrow. fold day. fold expiries.
  split.
  - pose proof (first_not_before_spec day expiries) as H.
    destruct (Server.first_not_before day expiries) as [[[dte exp] text]|].
    + destruct H as (Ht & Hd & Hge & before & after & Hl & Hb).
      repeat split; try assumption. exists before, after.
      split; [exact Hl|]. intros e Hin. split; [|apply Hparsed]; apply Hb; exact Hin.
    + intros e Hin. split; [|apply Hparsed]; apply H; exact Hin.
  - intros text rest -> Hnone. cbn [Server.first_not_before].
    unfold Server.calculate_dte at 1 2. rewrite Hnone. reflexivity.
Qed.

End ExpiryFurther.

Lemma calculate_dte_is_date_difference_witness :
  @Signal.calculate_dte sample_runtime "2025-01-09" (replace_midnight wednesday_1600)
  = 1.
Proof.
  destruct (@calculate_dte_is_date_difference sample_runtime "2025-01-09"
              (replace_midnight wednesday_1600) (mkdt 739260 0 0 0 0)
              ltac:(vm_compute; reflexivity) ltac:(reflexivity)) as (H & _).
  rewrite H. reflexivity.
Defined.

Lemma selected_expiry_is_nearest_witness :
  @Signal.get_nearest_expiry_instrument sample_runtime sample_world "token"
    = (Some "NIFTY", Some "2025-01-09", Some 1)%string /\
  In "2025-01-09"%string (get_expiry_dates sample_world "token" "NIFTY").
Proof.
  assert (Hsel : @Signal.get_nearest_expiry_instrument sample_runtime sample_world "token"
                 = (Some "NIFTY", Some "2025-01-09", Some 1)%string)
    by (vm_compute; reflexivity).
  split; [exact Hsel|].
  destruct (@selected_expiry_is_nearest sample_runtime sample_world "token"
              "NIFTY" "2025-01-09" 1 Hsel) as (Hin & _).
  exact Hin.
Defined.

(** ** Outcomes of a run *)

Section RunFurther.

Context {RT : PyRuntime}.

(** The three ways [get_all_signal_data] ends. *)
Lemma get_all_signal_data_run (w : World) :
  (str_truthy (load_access_token w) = false /\
   Server.get_all_signal_data w = ret (Server.Error "No access token found")) \/
  (exists access_token,
     load_access_token w = Some access_token /\
     access_token <> ""%string /\
     Signal.get_nearest_expiry_instrument w access_token = (None, None, None) /\
     Server.get_all_signal_data w = ret (Server.Error "No valid expiry found")) \/
  (exists access_token instrument expiry d b,
     load_access_token w = Some access_token /\
     access_token <> ""%string /\
     Signal.get_nearest_expiry_instrument w access_token
       = (Some instrument, Some expiry, Some d) /\
     Server.get_all_signal_data w = ret (Server.Signals b) /\
     Server.bid_prev_date (Server.bid b)
       = fst (fst (Server.get_trading_days_bid (now w))) /\
     Server.bid_today_date (Server.bid b)
       = snd (fst (Server.get_trading_days_bid (now w))) /\
     Server.bid_market_open (Server.bid b)
       = snd (Server.get_trading_days_bid (now w)) /\
     Server.pg_date (Server.pricegap b)
       = fst (Server.get_trading_days_pricegap (now w)) /\
     Server.coverage_date b = Server.get_next_trading_day (now w) /\
     Server.timestamp b = now w /\
     Server.sixthsense b = get_sixth_sense_data w instrument 5).
Proof.
  unfold Server.get_all_signal_data.
  destruct (load_access_token w) as [tok|];
    cbn [str_truthy negb default from_option id]; [|left; split; reflexivity].
  destruct (negb (tok =? "")%string) eqn:Htok; cbn [negb];
    [|left; split; reflexivity].
  assert (Hne' : tok <> ""%string).
  { intros ->. discriminate Htok. }
  right.
  change (Server.get_nearest_expiry_instrument w tok)
    with (Signal.get_nearest_expiry_instrument w tok).
  destruct (selector_shape w tok) as [Hsel|(inst & expiry & d & Hsel & Hinst & Hd)];
    rewrite Hsel; cbn [str_truthy negb].
  { left. exists tok. repeat split; first [exact Hsel|exact Hne']. }
  right.
  assert (Hne : negb (inst =? "")%string = true)
    by (destruct Hinst as [->| ->]; reflexivity).
  rewrite Hne. cbn [negb default from_option id].
  assert (Hinfo : exists info, Server.INSTRUMENTS !! inst = Some info)
    by (destruct Hinst as [->| ->]; eexists; vm_compute; reflexivity).
  destruct Hinfo as [info Hinfo]. rewrite Hinfo. cbn [bind ret].
  destruct (Server.get_trading_days_bid (now w)) as [[prev_day today] opened].
  destruct (Server.get_trading_days_pricegap (now w)) as [pg_date avail].
  set (ltp_prev := Server.get_330_ltp w tok (Server.index_key info) prev_day).
  set (open_today := Server.get_915_open w tok (Server.index_key info) today).
  set (ltp := Server.get_330_ltp w tok (Server.index_key info) pg_date).
  set (close := Server.get_daily_close w (Server.index_key info)).
  destruct (gap_fields_cases open_today ltp_prev)
    as [(e & l & _ & _ & _ & _ & g & p & dir & Hg & _)|[_ Hg]];
  destruct (gap_fields_cases ltp close)
    as [(e' & l' & _ & _ & _ & _ & g' & p' & dir' & Hg' & _)|[_ Hg']];
  rewrite Hg; cbn [bind ret]; rewrite Hg'; cbn [bind ret];
  exists tok, inst, expiry, d; eexists; repeat split;
  first [exact Hsel|exact Hne'].
Qed.

(** The three ways [main] of signal.py ends. *)
Lemma main_run (w : World) :
  (str_truthy (load_access_token w) = false /\
   Signal.main w = ret Signal.NoAccessToken) \/
  (exists access_token,
     load_access_token w = Some access_token /\
     access_token <> ""%string /\
     Signal.get_nearest_expiry_instrument w access_token = (None, None, None) /\
     Signal.main w = ret Signal.NoValidExpiry) \/
  (exists access_token instrument expiry d bid pricegap,
     load_access_token w = Some access_token /\
     access_token <> ""%string /\
     Signal.get_nearest_expiry_instrument w access_token
       = (Some instrument, Some expiry, Some d) /\
     Signal.main w
       = ret (Signal.Report instrument (Some expiry) (Z.max 0 (d - 1)) bid pricegap)).
Proof.
  unfold Signal.main.
  destruct (load_access_token w) as [tok|];
    cbn [str_truthy negb default from_option id]; [|left; split; reflexivity].
  destruct (negb (tok =? "")%string) eqn:Htok; cbn [negb];
    [|left; split; reflexivity].
  assert (Hne' : tok <> ""%string).
  { intros ->. discriminate Htok. }
  right.
  destruct (selector_shape w tok) as [Hsel|(inst & expiry & d & Hsel & Hinst & Hd)];
    rewrite Hsel; cbn [str_truthy negb].
  { left. exists tok. repeat split; first [exact Hsel|exact Hne']. }
  right.
  assert (Hne : negb (inst =? "")%string = true)
    by (destruct Hinst as [->| ->]; reflexivity).
  rewrite Hne. cbn [negb default from_option id].
  assert (Hinfo : exists info, Signal.INSTRUMENTS !! inst = Some info)
    by (destruct Hinst as [->| ->]; eexists; vm_compute; reflexivity).
  destruct Hinfo as [info Hinfo]. rewrite Hinfo. cbn [bind ret].
  destruct (Signal.get_trading_days_bid (now w)) as [[prev_day today] opened].
  destruct (Signal.get_trading_days_pricegap (now w)) as [pg_date avail].
  cbn [bind ret].
  match goal with
  | |- context [Signal.bid_section ?a ?b ?c] =>
      destruct (bid_section_cases a b c)
        as [(? & ? & _ & _ & _ & _ & ? & ? & ? & ? & ? & -> & _)|[_ ->]]
  end;
  match goal with
  | |- context [Signal.pricegap_section ?a ?b] =>
      destruct (pricegap_section_cases a b)
        as [(? & ? & _ & _ & _ & _ & ? & ? & ? & ? & ? & -> & _)|[_ ->]]
  end;
  cbn [bind ret]; exists tok, inst, expiry, d; eexists _, _; repeat split;
  first [exact Hsel|exact Hne'].
Qed.

(** Whether some expiry of an instrument lies in its window today. *)
Lemma first_in_window_none_iff (dte_of : string -> Z) (lo hi : Z)
    (expiries : list string) (r : option (string * Z)) :
  is_first_in_window dte_of lo hi expiries r ->
  (r = None <-> ~ exists e, In e expiries /\ lo <= dte_of e <= hi).
Proof.
  destruct r as [[exp dte]|]; cbn [is_first_in_window].
  - intros (before & after & -> & -> & Hw & _). split; [discriminate|].
    intros H. exfalso. apply H. exists exp. split; [|exact Hw].
    apply in_or_app. right. left. reflexivity.
  - intros Hall. split; [|reflexivity]. intros _ (e & Hin & Hw).
    apply (Hall e Hin Hw).
Qed.

(** How a run of server.py and of signal.py ends: with the report of a
    missing access token when the token is [None] or empty; with the
    report that no expiry is valid when NIFTY has no expiry 0 to 2 days
    away and SENSEX none 0 to 1 days away; and with a bundle, or the
    signal report, otherwise.  The two programs end alike. *)
Theorem run_outcome (w : World) :
  let today := replace_midnight (now w) in
  let in_window (access_token instrument : string) (hi : Z) :=
    exists e, In e (get_expiry_dates w access_token instrument) /\
              0 <= Signal.calculate_dte e today <= hi in
  match load_access_token w with
  | None =>
      Server.get_all_signal_data w = ret (Server.Error "No access token found") /\
      Signal.main w = ret Signal.NoAccessToken
  | Some access_token =>
      (access_token = ""%string ->
         Server.get_all_signal_data w
           = ret (Server.Error "No access token found") /\
         Signal.main w = ret Signal.NoAccessToken) /\
      (access_token <> ""%string ->
         ~ in_window access_token "NIFTY"%string 2 ->
         ~ in_window access_token "SENSEX"%string 1 ->
         Server.get_all_signal_data w
           = ret (Server.Error "No valid expiry found") /\
         Signal.main w = ret Signal.NoValidExpiry) /\
      (access_token <> ""%string ->
         in_window access_token "NIFTY"%string 2 \/
         in_window access_token "SENSEX"%string 1 ->
         exists b bid pricegap,
           Server.get_all_signal_data w = ret (Server.Signals b) /\
           Signal.main w
             = ret (Signal.Report (Server.instrument b) (Server.expiry_date b)
                      (Server.dte b) bid pricegap))
  end.
Proof.
  cbn zeta.
  pose proof (get_all_signal_data_run w) as Hserver.
  pose proof (main_run w) as Hmain.
  destruct (load_access_token w) as [tok|] eqn:Htok.
  - assert (Hsel :
      Signal.get_nearest_expiry_instrument w tok = (None, None, None) <->
      ~ (exists e, In e (get_expiry_dates w tok "NIFTY") /\
                   0 <= Signal.calculate_dte e (replace_midnight (now w)) <= 2) /\
      ~ (exists e, In e (get_expiry_dates w tok "SENSEX") /\
                   0 <= Signal.calculate_dte e (replace_midnight (now w)) <= 1)).
    { destruct (selector_is_nearest_of w tok) as (nifty & sensex & Hn & Hs & ->).
      apply first_in_window_none_iff in Hn, Hs. rewrite <- Hn, <- Hs.
      destruct nifty as [[ne nd]|], sensex as [[se sd]|]; cbn [nearest_of];
        try destruct (nd <=? sd); split;
        first [intros [? ?]; discriminate | intros ?; discriminate | auto]. }
    split; [|split].
    + intros ->.
      destruct Hserver as [[_ Hs]|[(t & Ht & Hne & _)|(t & i & e & d & b & Ht & Hne & _)]];
        [|injection Ht as <-; contradiction..].
      destruct Hmain as [[_ Hm]|[(t & Ht & Hne & _)|(t & i & e & d & bs & ps & Ht & Hne & _)]];
        [|injection Ht as <-; contradiction..].
      split; assumption.
    + intros Hne HnN HnS.
      assert (Hnone : Signal.get_nearest_expiry_instrument w tok = (None, None, None))
        by (apply Hsel; split; assumption).
      assert (Htruthy : str_truthy (Some tok) = true).
      { cbn. destruct (String.eqb_spec tok ""); [contradiction|reflexivity]. }
      split.
      * destruct Hserver as [[Hf _]|[(t & Ht & _ & _ & Hs)|(t & i & e & d & b & Ht & _ & Hs & _)]].
        -- rewrite Htruthy in Hf. discriminate.
        -- exact Hs.
        -- injection Ht as <-. rewrite Hnone in Hs. discriminate.
      * destruct Hmain as [[Hf _]|[(t & Ht & _ & _ & Hm)|(t & i & e & d & bs & ps & Ht & _ & Hm & _)]].
        -- rewrite Htruthy in Hf. discriminate.
        -- exact Hm.
        -- injection Ht as <-. rewrite Hnone in Hm. discriminate.
    + intros Hne Hin.
      assert (Hsome : Signal.get_nearest_expiry_instrument w tok <> (None, None, None)).
      { intros Hnone. apply Hsel in Hnone as [H1 H2]. destruct Hin; contradiction. }
      assert (Htruthy : str_truthy (Some tok) = true).
      { cbn. destruct (String.eqb_spec tok ""); [contradiction|reflexivity]. }
      destruct Hserver as [[Hf _]|[(t & Ht & _ & Hn & _)|(t & i & e & d & b & Ht & _ & Hs & Hrun & _)]].
      * rewrite Htruthy in Hf. discriminate.
      * injection Ht as <-. contradiction.
      * injection Ht as <-.
        destruct Hmain as [[Hf _]|[(t & Ht & _ & Hn & _)|(t & i' & e' & d' & bs & ps & Ht & _ & Hm & Hrunm)]].
        -- rewrite Htruthy in Hf. discriminate.
        -- injection Ht as <-. contradiction.
        -- injection Ht as <-. rewrite Hs in Hm. injection Hm as <- <- <-.
           exists b, bs, ps. split; [exact Hrun|].
           destruct (get_all_signal_data_success w b Hrun)
             as (tok' & inst & expiry & d0 & info & Htok' & Hsel' & _ & _ & Hi & He & Hd & _).
           rewrite Htok in Htok'. injection Htok' as <-.
           change (Server.get_nearest_expiry_instrument w tok)
             with (Signal.get_nearest_expiry_instrument w tok) in Hsel'.
           rewrite Hs in Hsel'. injection Hsel' as <- <- <-.
           rewrite Hi, He, Hd. exact Hrunm.
  - destruct Hserver as [[_ Hs]|[(t & Ht & _)|(t & i & e & d & b & Ht & _)]];
      try discriminate.
    destruct Hmain as [[_ Hm]|[(t & Ht & _)|(t & i & e & d & bs & ps & Ht & _)]];
      try discriminate.
    split; assumption.
Qed.

End RunFurther.

(** ** The bundle *)

Section BundleFurther.

Context {RT : PyRuntime}.


(** The entry the coverage loop appends for an instrument: none, or one
    that names the instrument, with days to expiry that are not negative
    and a spot price other than zero. *)
Lemma coverage_entry_shape (w : World) (access_token inst : string) :
  Server.coverage_entry w access_token inst = [] \/
  exists item,
    Server.coverage_entry w access_token inst = [item] /\
    Server.cov_name item = inst /\ 0 <= Server.cov_dte item /\
    ~ (Server.cov_spot item == 0)%Q.
Proof.
  unfold Server.coverage_entry, Server.get_dte_for_instrument_tomorrow.
  pose proof (first_not_before_spec (Server.get_next_trading_day (now w))
                (get_expiry_dates w access_token inst)) as Hdte.
  destruct (Server.first_not_before _ _) as [[[dte expiry] day]|]; [|left; reflexivity].
  destruct (Server.get_spot_price w inst) as [sp|]; [|left; reflexivity].
  destruct (truthy (Some sp)) eqn:Hsp; [|left; reflexivity].
  right. eexists. split; [reflexivity|]. cbn.
  split; [reflexivity|]. split; [apply Hdte|]. apply truthy_Some. exact Hsp.
Qed.

(** The coverage list of a bundle holds at most one entry for NIFTY and
    then at most one for SENSEX; every entry has days to expiry that are
    not negative, a spot price other than zero and one of the five
    percentages of the table. *)
Theorem coverage_list_shape (w : World) (b : Server.bundle) :
  Server.get_all_signal_data w = ret (Server.Signals b) ->
  let names := map Server.cov_name (Server.coverage_instruments b) in
  (names = [] \/ names = ["NIFTY"%string] \/ names = ["SENSEX"%string] \/
   names = ["NIFTY"; "SENSEX"]%string) /\
  forall item, In item (Server.coverage_instruments b) ->
    0 <= Server.cov_dte item /\
    ~ (Server.cov_spot item == 0)%Q /\
    In (Server.cov_pct item) [0.54; 0.81; 1.05; 1.20; 1.38]%Q.
Proof.
  intros Hrun. cbn zeta.
  destruct (get_all_signal_data_success w b Hrun)
    as (tok & inst & expiry & d & info & _ & _ & _ & _ & _ & _ & _ & _
        & _ & _ & _ & _ & Hcov).
  rewrite Hcov.
  assert (Hitem : forall i item,
    In item (Server.coverage_entry w tok i) ->
    0 <= Server.cov_dte item /\ ~ (Server.cov_spot item == 0)%Q /\
    In (Server.cov_pct item) [0.54; 0.81; 1.05; 1.20; 1.38]%Q).
  { intros i item Hin.
    destruct (coverage_entry_spec w tok i item Hin) as (_ & _ & _ & Hpct & _).
    destruct (coverage_entry_shape w tok i) as [E|(it & E & _ & Hd & Hs)];
      rewrite E in Hin; [destruct Hin|destruct Hin as [<-|[]]].
    split; [exact Hd|]. split; [exact Hs|]. rewrite Hpct. unfold premium_pct.
    repeat match goal with
           | |- context [?a =? ?c] => destruct (a =? c)
           end; cbn; auto 10. }
  split.
  - destruct (coverage_entry_shape w tok "NIFTY") as [->|(n & -> & Hn & _)];
    destruct (coverage_entry_shape w tok "SENSEX") as [->|(s & -> & Hs & _)];
      cbn [app map]; rewrite ?Hn, ?Hs; auto.
  - intros item Hin. apply in_app_or in Hin as [Hin|Hin]; eapply Hitem; exact Hin.
Qed.

End BundleFurther.


Lemma coverage_list_shape_witness :
  exists b,
    @Server.get_all_signal_data sample_runtime sample_world
      = ret (Server.Signals b) /\
    forall item, In item (Server.coverage_instruments b) ->
                 0 <= Server.cov_dte item.
Proof.
  eexists. split; [vm_compute; reflexivity|].
  match goal with
  | |- context [Server.coverage_instruments ?b] =>
      destruct (@coverage_list_shape sample_runtime sample_world b
                  ltac:(vm_compute; reflexivity)) as (_ & H)
  end.
  intros item Hin. apply (H item Hin).
Defined.

(** ** Rounding and direction *)



Section DirectionFurther.

Context {RT : PyRuntime}.


End DirectionFurther.


(** ** The report of bid.py *)

Section BidFurther.

Context {RT : PyRuntime}.




End BidFurther.

(** ** Lookups with a default *)

(** A key that a ticker table does not hold: [get_spot_price] of
    server.py then asks for the NIFTY ticker, and [get_daily_close] of
    both programs returns nothing, as for the Bank Nifty key of bid.py. *)
Theorem ticker_table_misses {RT : PyRuntime} (w : World) :
  (forall instrument, instrument <> "SENSEX"%string ->
     Server.get_spot_price w instrument = Server.get_spot_price w "NIFTY") /\
  (forall instrument_key,
     instrument_key <> "NSE_INDEX|Nifty 50"%string ->
     instrument_key <> "BSE_INDEX|SENSEX"%string ->
     Server.get_daily_close w instrument_key = None /\
     forall access_token day,
       Signal.get_daily_close w access_token instrument_key day = None) /\
  Server.get_daily_close w "NSE_INDEX|Nifty Bank" = None.
Proof.
  split; [|split].
  - intros inst Hne. unfold Server.get_spot_price, Server.spot_tickers.
    destruct (String.eqb_spec inst "NIFTY") as [->|Hn]; [reflexivity|].
    rewrite !lookup_insert_ne by congruence. rewrite lookup_empty.
    reflexivity.
  - intros key H1 H2.
    unfold Server.get_daily_close, Signal.get_daily_close,
      Server.yahoo_tickers, Signal.yahoo_tickers.
    rewrite !lookup_insert_ne by congruence. rewrite lookup_empty.
    split; reflexivity.
  - reflexivity.
Qed.

(** ** The coverage table of signal.py *)

(** The coverage table of signal.py has one line for NIFTY and then one
    for SENSEX.  A line reports no valid expiry exactly when the lookup
    of the days to expiry returns nothing.  When the NSE endpoint answers
    without a last price, the NIFTY line reports the spot unavailable and
    Yahoo Finance is not asked.  When the NSE endpoint does not answer,
    every entry of the coverage list of server.py appears as the premium
    line of its instrument, with the same days, spot, percentage and
    premium. *)
Theorem signal_coverage_lines {RT : PyRuntime} (w : World)
    (nse : option (option Q)) (access_token : string) :
  Signal.print_coverage_premium_content w nse access_token
    = [Signal.coverage_line_for w nse access_token "NIFTY";
       Signal.coverage_line_for w nse access_token "SENSEX"] /\
  (forall instrument,
     Signal.coverage_line_for w nse access_token instrument
       = Signal.NoValidExpiryLine instrument
     <-> Signal.get_dte_for_instrument_tomorrow w access_token instrument = None) /\
  (forall dte expiry day,
     nse = Some None ->
     Signal.get_dte_for_instrument_tomorrow w access_token "NIFTY"
       = Some (dte, expiry, day) ->
     Signal.coverage_line_for w nse access_token "NIFTY"
       = Signal.SpotUnavailableLine "NIFTY" dte) /\
  (forall instrument item,
     instrument = "NIFTY"%string \/ instrument = "SENSEX"%string ->
     nse = None ->
     Server.coverage_entry w access_token instrument = [item] ->
     Signal.coverage_line_for w nse access_token instrument
       = Signal.PremiumLine instrument (Server.cov_dte item) (Server.cov_spot item)
           (Server.cov_pct item) (Server.cov_premium item)).
Proof.
  split; [reflexivity|]. split; [|split].
  - intros inst. unfold Signal.coverage_line_for.
    destruct (Signal.get_dte_for_instrument_tomorrow w access_token inst)
      as [[[dte expiry] day]|]; [|split; reflexivity].
    split; [|discriminate].
    destruct (if (inst =? "NIFTY")%string
              then Signal.get_spot_price_nse w nse inst
              else Signal.get_spot_price_bse w inst); discriminate.
  - intros dte expiry day -> Hdte. unfold Signal.coverage_line_for.
    rewrite Hdte. reflexivity.
  - intros inst item Hinst -> Hentry.
    unfold Server.coverage_entry in Hentry. unfold Signal.coverage_line_for.
    change (Signal.get_dte_for_instrument_tomorrow w access_token inst)
      with (Server.get_dte_for_instrument_tomorrow w access_token inst).
    destruct (Server.get_dte_for_instrument_tomorrow w access_token inst)
      as [[[dte expiry] day]|]; [|discriminate].
    assert (Hspot : (if (inst =? "NIFTY")%string
                     then Signal.get_spot_price_nse w None inst
                     else Signal.get_spot_price_bse w inst)
                    = Server.get_spot_price w inst).
    { destruct Hinst as [->| ->]; reflexivity. }
    rewrite Hspot.
    destruct (Server.get_spot_price w inst) as [sp|]; [|discriminate].
    destruct (truthy (Some sp)); [|discriminate].
    injection Hentry as <-. reflexivity.
Qed.

Lemma signal_coverage_lines_witness :
  @Signal.coverage_line_for sample_runtime sample_world None "token" "NIFTY"
  = Signal.PremiumLine "NIFTY" 0 25000 0.54 135.
Proof.
  destruct (@signal_coverage_lines sample_runtime sample_world None "token")
    as (_ & _ & _ & H).
  rewrite (H "NIFTY"%string (Server.mkcoverage "NIFTY" 0 25000 0.54 135)
             ltac:(left; reflexivity) eq_refl ltac:(vm_compute; reflexivity)).
  reflexivity.
Defined.

(** ** Timestamps *)

(** Removing ["+05:30"] leaves a text without a plus sign as it is. *)
Lemma remove_all_without_plus (s : string) :
  ~ In "+"%char (list_ascii_of_string s) ->
  remove_all "+05:30" 0 s = s.
Proof.
  induction s as [|c rest IH]; [reflexivity|].
  cbn [list_ascii_of_string]. intros Hno.
  cbn [remove_all String.prefix].
  destruct (ascii_dec "+" c) as [E|_].
  - exfalso. apply Hno. left. symmetry. exact E.
  - f_equal. apply IH. intros Hin. apply Hno. right. exact Hin.
Qed.

(** The zone suffix of a provider timestamp is dropped before the text
    is parsed: a candle stamped with a text without a plus sign, followed
    or not by ["+05:30"], is read as that text. *)
Theorem timestamp_zone_is_dropped {RT : PyRuntime} (c : candle) (text : string) :
  ~ In "+"%char (list_ascii_of_string text) ->
  (c_timestamp c = (text ++ "+05:30")%string ->
   candle_datetime c = fromisoformat text) /\
  (c_timestamp c = text -> candle_datetime c = fromisoformat text).
Proof.
  intros Hno. split; intros Hts; unfold candle_datetime; rewrite Hts; f_equal;
    [|apply remove_all_without_plus; exact Hno].
  clear Hts. induction text as [|a rest IH]; [reflexivity|].
  cbn [list_ascii_of_string] in Hno.
  change ((String a rest ++ "+05:30")%string)
    with (String a (rest ++ "+05:30")%string).
  cbn [remove_all String.prefix].
  destruct (ascii_dec "+" a) as [E|_].
  - exfalso. apply Hno. left. symmetry. exact E.
  - f_equal. apply IH. intros Hin. apply Hno. right. exact Hin.
Qed.

Lemma timestamp_zone_is_dropped_witness :
  @candle_datetime sample_runtime candle_1525
  = sample_fromisoformat "2025-01-03T15:25:00".
Proof.
  destruct (@timestamp_zone_is_dropped sample_runtime candle_1525
              "2025-01-03T15:25:00" ltac:(cbn; intuition discriminate))
    as [H _].
  apply H. reflexivity.
Defined.

(** ** The report of signal.py against the bundle of server.py *)

Section ReportFurther.

Context {RT : PyRuntime}.

Lemma bid_section_matches (ltp_330_prev open_915_today : option Q)
    (is_market_open : bool) s g p d :
  Signal.bid_section ltp_330_prev open_915_today is_market_open = ret s ->
  Server.gap_fields open_915_today ltp_330_prev = ret (g, p, d) ->
  section_matches s ltp_330_prev open_915_today g p d /\
  (s = MarketNotOpenYet -> is_market_open = false) /\
  (s = DataNotAvailable -> is_market_open = true).
Proof.
  unfold Signal.bid_section, Server.gap_fields, Signal.format_gap, py_div.
  destruct ltp_330_prev as [e|], open_915_today as [l|]; cbn [truthy andb].
  2-4: destruct is_market_open; cbn [negb bind ret];
    intros Hs Hg; injection Hs as <-; injection Hg as <- <- <-;
    cbn; repeat split; congruence.
  destruct (Qeq_bool e 0), (Qeq_bool l 0); cbn [negb andb bind ret].
  1-3: destruct is_market_open; cbn [negb bind ret];
    intros Hs Hg; injection Hs as <-; injection Hg as <- <- <-;
    cbn; repeat split; congruence.
  destruct (Qgtb (round2 (l - e)) 0); [|destruct (Qltb (round2 (l - e)) 0)];
    cbn [bind ret]; intros Hs Hg; injection Hs as <-; injection Hg as <- <- <-;
    cbn; repeat split; try discriminate; auto 10.
Qed.

Lemma pricegap_section_matches (ltp_330 daily_close : option Q) s g p d :
  Signal.pricegap_section ltp_330 daily_close = ret s ->
  Server.gap_fields ltp_330 daily_close = ret (g, p, d) ->
  section_matches s ltp_330 daily_close g p d /\ s <> MarketNotOpenYet.
Proof.
  unfold Signal.pricegap_section, Server.gap_fields, Signal.format_gap, py_div.
  destruct ltp_330 as [l|], daily_close as [e|]; cbn [truthy andb].
  2-4: cbn [bind ret];
    intros Hs Hg; injection Hs as <-; injection Hg as <- <- <-;
    cbn; repeat split; congruence.
  destruct (Qeq_bool e 0), (Qeq_bool l 0); cbn [negb andb bind ret].
  1-3: intros Hs Hg; injection Hs as <-; injection Hg as <- <- <-;
    cbn; repeat split; congruence.
  destruct (Qgtb (round2 (l - e)) 0); [|destruct (Qltb (round2 (l - e)) 0)];
    cbn [bind ret]; intros Hs Hg; injection Hs as <-; injection Hg as <- <- <-;
    cbn; repeat split; try discriminate; auto 10.
Qed.

(** In one world the report of signal.py and the bundle of server.py
    agree: the same instrument, expiry and count of days; each section of
    the report shows the prices, the gap, the percentage and the
    direction that the bundle holds, or a notice where the bundle holds
    none; and the BID section says the market is not open yet only when
    the market_open flag of the bundle is false. *)
Theorem report_matches_bundle (w : World) (b : Server.bundle)
    instrument expiry_date trading_day_dte bid pricegap :
  Server.get_all_signal_data w = ret (Server.Signals b) ->
  Signal.main w
    = ret (Signal.Report instrument expiry_date trading_day_dte bid pricegap) ->
  instrument = Server.instrument b /\
  expiry_date = Server.expiry_date b /\
  trading_day_dte = Server.dte b /\
  section_matches bid
    (Server.bid_ltp_330 (Server.bid b)) (Server.bid_open_915 (Server.bid b))
    (Server.bid_gap (Server.bid b)) (Server.bid_gap_pct (Server.bid b))
    (Server.bid_direction (Server.bid b)) /\
  section_matches pricegap
    (Server.pg_ltp_330 (Server.pricegap b)) (Server.pg_daily_close (Server.pricegap b))
    (Server.pg_gap (Server.pricegap b)) (Server.pg_gap_pct (Server.pricegap b))
    (Server.pg_direction (Server.pricegap b)) /\
  (bid = MarketNotOpenYet -> Server.bid_market_open (Server.bid b) = false) /\
  (bid = DataNotAvailable -> Server.bid_market_open (Server.bid b) = true) /\
  pricegap <> MarketNotOpenYet.
Proof.
  intros Hserver Hmain.
  destruct (get_all_signal_data_success w b Hserver)
    as (tok & inst & expiry & d & info & Htok & Hsel & _ & Hinfo & Hi & He & Hd
        & Hprices & Hbid & Hltp & Hclose & Hpg & _).
  destruct (main_success w _ _ _ _ _ Hmain)
    as (tok' & expiry' & d' & info' & Htok' & Hsel' & _ & Hinfo' & He' & Hd'
        & Hbs & Hps).
  rewrite Htok in Htok'. injection Htok' as <-.
  change (Server.get_nearest_expiry_instrument w tok)
    with (Signal.get_nearest_expiry_instrument w tok) in Hsel.
  rewrite Hsel in Hsel'. injection Hsel' as <- <- <-.
  assert (Hkey : Signal.index_key info' = Server.index_key info).
  { destruct (selector_shape w tok) as [Hn|(i & e & dd & Hs & Hi' & _)];
      rewrite Hsel in *; [discriminate|]. injection Hs as <- _ _.
    destruct Hi' as [->| ->]; vm_compute in Hinfo, Hinfo';
      injection Hinfo as <-; injection Hinfo' as <-; reflexivity. }
  rewrite Hkey in Hbs, Hps.
  destruct (get_all_signal_data_run w)
    as [[_ H]|[(t & _ & _ & _ & H)|(t & i & e & dd & b' & _ & _ & _ & H & _ & _ & Hopen & _)]];
    rewrite Hserver in H; try discriminate H. injection H as <-.
  change (Signal.get_trading_days_bid (now w))
    with (Server.get_trading_days_bid (now w)) in Hbs.
  change (Signal.get_trading_days_pricegap (now w))
    with (Server.get_trading_days_pricegap (now w)) in Hps.
  destruct (Server.get_trading_days_bid (now w)) as [[prev_day today] opened].
  destruct (Server.get_trading_days_pricegap (now w)) as [pg_date avail].
  cbn [fst snd] in *. destruct Hprices as [Hp1 Hp2].
  change (Signal.get_330_ltp w tok (Server.index_key info))
    with (Server.get_330_ltp w tok (Server.index_key info)) in Hbs, Hps.
  change (Signal.get_915_open w tok (Server.index_key info))
    with (Server.get_915_open w tok (Server.index_key info)) in Hbs.
  change (Signal.get_daily_close w tok (Server.index_key info) pg_date)
    with (Server.get_daily_close w (Server.index_key info)) in Hps.
  rewrite <- Hp1, <- Hp2 in Hbs. rewrite <- Hltp, <- Hclose in Hps.
  destruct (bid_section_matches _ _ _ _ _ _ _ Hbs Hbid) as (Hm1 & Hn1 & Hn2).
  destruct (pricegap_section_matches _ _ _ _ _ _ Hps Hpg) as (Hm2 & Hn3).
  rewrite Hopen. repeat split; try assumption; congruence.
Qed.

End ReportFurther.

Lemma report_matches_bundle_witness :
  exists b bid pricegap,
    @Server.get_all_signal_data sample_runtime sample_world
      = ret (Server.Signals b) /\
    @Signal.main sample_runtime sample_world
      = ret (Signal.Report "NIFTY" (Some "2025-01-09"%string) 0 bid pricegap) /\
    section_matches bid
      (Server.bid_ltp_330 (Server.bid b)) (Server.bid_open_915 (Server.bid b))
      (Server.bid_gap (Server.bid b)) (Server.bid_gap_pct (Server.bid b))
      (Server.bid_direction (Server.bid b)).
Proof.
  eexists _, _, _. split; [vm_compute; reflexivity|].
  split; [vm_compute; reflexivity|].
  match goal with
  | |- section_matches ?bid (Server.bid_ltp_330 (Server.bid ?b)) _ _ _ _ =>
      destruct (@report_matches_bundle sample_runtime sample_world b
                  "NIFTY" (Some "2025-01-09"%string) 0 bid
                  (GapLines 24900.5 25000 (-199 # 2) (-2 # 5) RED "▼" "Down")
                  ltac:(vm_compute; reflexivity) ltac:(vm_compute; reflexivity))
        as (_ & _ & _ & H & _)
  end.
  exact H.
Defined.
